(** * benchopt.config: settings resolution

    A shallow embedding of [benchopt/config.py] (the settings of benchopt:
    environment variable, then configuration file, then default value) and
    the properties of its specification.

    Conventions of the embedding.
    - A Python [str] is a [string]; each character stands for the code
      point of the same number, so the strings of the model are the Python
      strings with code points below 256.
    - Python objects that reach the module are values of [pyval].
    - An exception is a value of [exn]; a call returns [Ok v] or [Raise e].
    - The process state ([os.environ], the home directory, the umask, the
      files, and what was printed or warned) is a [World]; effectful
      functions are state transformers over it (the monad [M]).
    - A file is represented by the document it holds and the syntax it is
      written in ([content]); the two libraries that read and write files,
      [configparser] and [yaml], are modelled on that representation.
    - The file system is a map from paths to regular files with their
      mode. Directories are taken to exist, and the mode of a file does
      not restrict what the process reads or writes.
    - The text that [ConfigParser.write] produces is represented by the
      parser that [ConfigParser.read] builds from it: the option values
      come back stripped line by line and without their comment lines
      ([read_back]). A value written to such a file is taken to hold no
      carriage return and a section name no line break, so that every
      header and every option is read from the lines it was written on. *)

From stdpp Require Import gmap strings list fin_maps.
From Stdlib Require Import ZArith NArith Ascii String.

Set Warnings "-register-all".
Local Open Scope Z_scope.

(** ** Text: the [str] methods the module calls *)

Module Text.

Definition code (c : ascii) : N := N_of_ascii c.

Definition between (lo hi n : N) : bool := ((lo <=? n) && (n <=? hi))%N.

(** [str.isspace] on one character: the white space of Unicode below 256. *)
Definition isspace (c : ascii) : bool :=
  let n := code c in
  between 9 13 n || between 28 32 n || (n =? 133)%N || (n =? 160)%N.

(** Characters of [str.lower] below 256: A-Z and the accented capitals. *)
Definition lower_char (c : ascii) : ascii :=
  let n := code c in
  if between 65 90 n || (between 192 222 n && negb (n =? 215)%N)
  then ascii_of_N (n + 32) else c.

(** [str.upper] on the ASCII letters. It is applied to registered option
    names only, which are ASCII. *)
Definition upper_char (c : ascii) : ascii :=
  let n := code c in
  if between 97 122 n then ascii_of_N (n - 32) else c.

Fixpoint map_chars (f : ascii -> ascii) (s : string) : string :=
  match s with
  | EmptyString => EmptyString
  | String c r => String (f c) (map_chars f r)
  end.

Definition lower : string -> string := map_chars lower_char.
Definition upper : string -> string := map_chars upper_char.

Fixpoint contains (c : ascii) (s : string) : bool :=
  match s with
  | EmptyString => false
  | String a r => bool_decide (a = c) || contains c r
  end.

Fixpoint any_char (p : ascii -> bool) (s : string) : bool :=
  match s with
  | EmptyString => false
  | String a r => p a || any_char p r
  end.

Definition push (c : ascii) (ws : list string) : list string :=
  match ws with
  | w :: r => String c w :: r
  | [] => [String c EmptyString]
  end.

(** [s.split()]: the maximal runs of non-blank characters, in order.
    [words s] also tells whether [s] starts inside a run. *)
Fixpoint words (s : string) : bool * list string :=
  match s with
  | EmptyString => (false, [])
  | String c r =>
      let '(inside, ws) := words r in
      if isspace c then (false, ws)
      else (true, if inside then push c ws else String c EmptyString :: ws)
  end.

Definition split (s : string) : list string := snd (words s).

(** [s.split(sep)] for a one-character separator: empty fields are kept,
    and the result is never empty. *)
Fixpoint split_on (sep : ascii) (s : string) : list string :=
  match s with
  | EmptyString => [EmptyString]
  | String c r =>
      if bool_decide (c = sep) then EmptyString :: split_on sep r
      else push c (split_on sep r)
  end.

Fixpoint lstrip (s : string) : string :=
  match s with
  | EmptyString => EmptyString
  | String c r => if isspace c then lstrip r else s
  end.

Fixpoint rstrip (s : string) : string :=
  match s with
  | EmptyString => EmptyString
  | String c r =>
      match rstrip r with
      | EmptyString => if isspace c then EmptyString else String c EmptyString
      | r' => String c r'
      end
  end.

Definition strip (s : string) : string := lstrip (rstrip s).

(** [sep.join(l)] *)
Fixpoint join (sep : string) (l : list string) : string :=
  match l with
  | [] => EmptyString
  | [x] => x
  | x :: r => x +:+ sep +:+ join sep r
  end.

Definition nonempty (s : string) : bool :=
  match s with EmptyString => false | _ => true end.

Definition starts_with (c : ascii) (s : string) : bool :=
  match s with String a _ => bool_decide (a = c) | _ => false end.

End Text.

(** ** Values, exceptions, results *)

(** The Python objects of the module: option values and YAML documents.
    A [dict] here has [str] keys. *)
Inductive pyval :=
| PNone
| PBool (b : bool)
| PInt (n : Z)
| PStr (s : string)
| PList (l : list pyval)
| PDict (d : gmap string pyval).

Inductive exn :=
| AssertionError
| KeyError (key : string)
| AttributeError
| TypeError
| ValueError
| SystemExit (status : Z)
| FileNotFoundError
| YAMLError                      (* yaml.safe_load cannot parse the text *)
| MissingSectionHeaderError      (* configparser: text before any section *)
| NoSectionError
| NoOptionError
| InterpolationError.            (* configparser: bad [%] reference in a value *)

Inductive res (A : Type) :=
| Ok (a : A)
| Raise (e : exn).
Arguments Ok {A} a.
Arguments Raise {A} e.

Definition res_bind {A B} (r : res A) (k : A -> res B) : res B :=
  match r with
  | Ok a => k a
  | Raise e => Raise e
  end.

Definition isinstance_bool (v : pyval) : bool :=
  match v with PBool _ => true | _ => false end.
Definition isinstance_str (v : pyval) : bool :=
  match v with PStr _ => true | _ => false end.
Definition isinstance_list (v : pyval) : bool :=
  match v with PList _ => true | _ => false end.
(** [isinstance(v, Iterable)] for the objects of [pyval]. *)
Definition isinstance_Iterable (v : pyval) : bool :=
  match v with PStr _ | PList _ | PDict _ => true | _ => false end.

(** Ordered dictionaries with [str] keys (the registries, the sections of a
    [ConfigParser]): a key keeps its place when its value is replaced. *)
Module Alist.
Section ops.
Context {V : Type}.

Fixpoint get (k : string) (l : list (string * V)) : option V :=
  match l with
  | [] => None
  | (k', v) :: r => if decide (k' = k) then Some v else get k r
  end.

Fixpoint set (k : string) (v : V) (l : list (string * V)) : list (string * V) :=
  match l with
  | [] => [(k, v)]
  | (k', v') :: r =>
      if decide (k' = k) then (k, v) :: r else (k', v') :: set k v r
  end.

Definition keys (l : list (string * V)) : list string := map fst l.

Definition mem (k : string) (l : list (string * V)) : bool :=
  match get k l with Some _ => true | None => false end.
End ops.
End Alist.

(** ** pathlib *)

Module Pathlib.

(** A path is the list of its components ([PurePath.parts]); the current
    directory [Path('.')] has none. *)
Abbreviation Path := (list string).

(** [p / name] for a one-component [name]. *)
Definition joinpath (p : Path) (name : string) : Path := p ++ [name].

(** [Path(s)]: components are separated by slashes; empty components and
    single dots are dropped, a leading slash is the root. *)
Definition Path_of (s : string) : Path :=
  let parts :=
    filter (fun c => c <> EmptyString /\ c <> "."%string)
           (Text.split_on "/" s) in
  if Text.starts_with "/" s then "/"%string :: parts else parts.

Definition name (p : Path) : string := default EmptyString (last p).

(** Split a name at its last dot. *)
Fixpoint rsplit_dot (s : string) : option (string * string) :=
  match s with
  | EmptyString => None
  | String c r =>
      match rsplit_dot r with
      | Some (stem, ext) => Some (String c stem, ext)
      | None => if bool_decide (c = "."%char) then Some (EmptyString, r) else None
      end
  end.

(** The stem and the extension of a name whose last dot is neither its
    first nor its last character. *)
Definition split_suffix (n : string) : option (string * string) :=
  match rsplit_dot n with
  | Some (stem, ext) =>
      if Text.nonempty stem && Text.nonempty ext then Some (stem, ext) else None
  | None => None
  end.

(** [p.suffix] *)
Definition suffix (p : Path) : string :=
  match split_suffix (name p) with
  | Some (_, ext) => String "." ext
  | None => EmptyString
  end.

(** [p.with_suffix(s)]. pathlib raises [ValueError] for a path with an
    empty name; the module calls it on paths that end in the name of the
    configuration file or that have the suffix [.ini]. *)
Definition with_suffix (p : Path) (s : string) : Path :=
  match p with
  | [] => []
  | _ =>
      let n := name p in
      let stem := match split_suffix n with Some (st, _) => st | None => n end in
      removelast p ++ [stem +:+ s]
  end.

End Pathlib.
Import Pathlib.

(** ** configparser *)

Module Configparser.

(** What a [ConfigParser] holds: the options of the [DEFAULT] section and
    the other sections in order, with the values as stored (raw). *)
Record ConfigParser := mkConfigParser {
  _defaults : list (string * string);
  _sections : list (string * list (string * string));
}.

Definition empty : ConfigParser := mkConfigParser [] [].

Definition default_section : string := "DEFAULT".

(** [ConfigParser.BOOLEAN_STATES] *)
Definition BOOLEAN_STATES : list (string * bool) :=
  [("1", true); ("yes", true); ("true", true); ("on", true);
   ("0", false); ("no", false); ("false", false); ("off", false)]%string.

Definition optionxform : string -> string := Text.lower.

(** [config.sections()] *)
Definition sections (c : ConfigParser) : list string := Alist.keys (_sections c).

(** [section in config] *)
Definition contains (section : string) (c : ConfigParser) : bool :=
  bool_decide (section = default_section) || Alist.mem section (_sections c).

(** [config[section] = {}] for a section that is not in [config]. *)
Definition add_section (section : string) (c : ConfigParser) : ConfigParser :=
  mkConfigParser (_defaults c) (_sections c ++ [(section, [])]).

(** [list(config[section].keys())], for a section other than [DEFAULT]:
    its own options, then those of [DEFAULT] it does not redefine. *)
Definition options (c : ConfigParser) (section : string) : res (list string) :=
  match Alist.get section (_sections c) with
  | None => Raise NoSectionError
  | Some opts =>
      Ok (Alist.keys opts ++
          filter (fun k => Alist.mem k opts = false) (Alist.keys (_defaults c)))
  end.

(** *** Interpolation ([BasicInterpolation]) *)

Inductive scan_state :=
| Plain                      (* outside a reference *)
| Percent                    (* after [%] *)
| Name (acc : string)        (* after [%(], the name read so far *)
| Close (name : string).     (* after [%(name)] *)

(** [before_set]: the value without its [%%] pairs and its [%(name)s]
    references must hold no [%]. *)
Fixpoint drop_escaped (s : string) : string :=
  match s with
  | String "%" (String "%" r) => drop_escaped r
  | String c r => String c (drop_escaped r)
  | EmptyString => EmptyString
  end.

Fixpoint references_ok (st : scan_state) (s : string) : bool :=
  match s with
  | EmptyString => match st with Plain => true | _ => false end
  | String c r =>
      match st with
      | Plain =>
          if bool_decide (c = "%"%char) then references_ok Percent r
          else references_ok Plain r
      | Percent =>
          if bool_decide (c = "("%char) then references_ok (Name EmptyString) r
          else false
      | Name acc =>
          if bool_decide (c = ")"%char)
          then Text.nonempty acc && references_ok (Close acc) r
          else references_ok (Name (acc +:+ String c EmptyString)) r
      | Close n =>
          if bool_decide (c = "s"%char) then references_ok Plain r else false
      end
  end.

Definition before_set (value : string) : res string :=
  if references_ok Plain (drop_escaped value) then Ok value else Raise ValueError.

(** [before_get]: [%%] is a percent sign, [%(name)s] the value of option
    [name], itself interpolated when it holds a [%]; anything else after
    a [%] is an error, as is nesting deeper than ten levels. *)
Definition MAX_INTERPOLATION_DEPTH : nat := 10.

Fixpoint interpolate_scan (nested : string -> res string)
    (lookup : string -> option string) (st : scan_state) (rest : string)
    : res string :=
  match rest with
  | EmptyString => match st with Plain => Ok EmptyString | _ => Raise InterpolationError end
  | String c r =>
      match st with
      | Plain =>
          if bool_decide (c = "%"%char) then interpolate_scan nested lookup Percent r
          else res_bind (interpolate_scan nested lookup Plain r)
                 (fun out => Ok (String c out))
      | Percent =>
          if bool_decide (c = "%"%char)
          then res_bind (interpolate_scan nested lookup Plain r)
                 (fun out => Ok (String "%" out))
          else if bool_decide (c = "("%char)
          then interpolate_scan nested lookup (Name EmptyString) r
          else Raise InterpolationError
      | Name acc =>
          if bool_decide (c = ")"%char)
          then (if Text.nonempty acc
                then interpolate_scan nested lookup (Close acc) r
                else Raise InterpolationError)
          else interpolate_scan nested lookup (Name (acc +:+ String c EmptyString)) r
      | Close n =>
          if bool_decide (c = "s"%char)
          then match lookup (optionxform n) with
               | None => Raise InterpolationError
               | Some v =>
                   res_bind (if Text.contains "%" v then nested v else Ok v)
                     (fun v' =>
                        res_bind (interpolate_scan nested lookup Plain r)
                          (fun out => Ok (v' +:+ out)))
               end
          else Raise InterpolationError
      end
  end.

Fixpoint interpolate_some (depth_left : nat) (lookup : string -> option string)
    (rest : string) : res string :=
  match depth_left with
  | O => Raise InterpolationError
  | S d => interpolate_scan (interpolate_some d lookup) lookup Plain rest
  end.

(** [config.get(section, option)] *)
Definition get (c : ConfigParser) (section option : string) : res string :=
  match Alist.get section (_sections c) with
  | None =>
      if bool_decide (section = default_section)
      then Raise NoOptionError (* not reached: sections() never lists DEFAULT *)
      else Raise NoSectionError
  | Some opts =>
      let lookup k :=
        match Alist.get k opts with
        | Some v => Some v
        | None => Alist.get k (_defaults c)
        end in
      match lookup (optionxform option) with
      | None => Raise NoOptionError
      | Some value => interpolate_some MAX_INTERPOLATION_DEPTH lookup value
      end
  end.

(** [config[section][option] = value]: the value must be a [str] whose
    [%] signs are well formed; the empty section name and [DEFAULT] both
    designate the defaults. *)
Definition setitem (c : ConfigParser) (section option : string) (value : pyval)
    : res ConfigParser :=
  match value with
  | PStr s =>
      res_bind (if Text.nonempty s then before_set s else Ok s) (fun s =>
      if negb (Text.nonempty section) || bool_decide (section = default_section)
      then Ok (mkConfigParser (Alist.set (optionxform option) s (_defaults c))
                              (_sections c))
      else match Alist.get section (_sections c) with
           | None => Raise NoSectionError
           | Some opts =>
               Ok (mkConfigParser (_defaults c)
                     (Alist.set section
                        (Alist.set (optionxform option) s opts) (_sections c)))
           end)
  | _ => Raise TypeError
  end.

(** *** Writing, and reading what was written

    [config.write(f)] writes an option as [key = value], with a tab after
    each line break of the value. [config.read] strips the rest of the
    first line, strips every continuation line, skips the continuation
    lines that start with [#] or [;] once stripped (they are comments),
    joins what is left with line breaks and strips the end of the
    result. *)
Definition is_comment (line : string) : bool :=
  Text.starts_with "#" line || Text.starts_with ";" line.

Definition read_back_value (value : string) : string :=
  match Text.split_on "010" value with
  | first :: continuation =>
      Text.rstrip
        (Text.join (String "010" EmptyString)
           (Text.strip first
              :: List.filter (fun line => negb (is_comment line))
                   (map Text.strip continuation)))
  | [] => EmptyString   (* not reached: [split] returns a field at least *)
  end.

Definition read_back_options (opts : list (string * string)) : list (string * string) :=
  map (fun kv => (fst kv, read_back_value (snd kv))) opts.

(** The parser that [read] builds from the text that [write] produces. *)
Definition read_back (c : ConfigParser) : ConfigParser :=
  mkConfigParser
    (read_back_options (_defaults c))
    (map (fun sec => (fst sec, read_back_options (snd sec))) (_sections c)).

End Configparser.
Import Configparser.

(** ** The process state *)

(** What a file holds. [CEmpty] is a file without text (as [touch] creates
    it); [CIni c] is text in the sectioned syntax that [ConfigParser] reads
    as [c]; [CYaml v] is a YAML document that loads as [v]. *)
Inductive content :=
| CEmpty
| CIni (c : ConfigParser)
| CYaml (v : pyval).

Record file := mkFile { st_mode : Z; body : content }.

(** Diagnostics: the calls of [warnings.warn] and [print], in order. *)
Inductive diagnostic :=
| Warn_file_mode (config_file : Path) (mode : Z)
| Warn_ini_deprecated (config_file : Path)
| Warn_not_a_boolean (value : string)
| Printed (text : string).

Record World := mkWorld {
  environ : gmap string string;   (* os.environ *)
  home : Path;                    (* Path.home() *)
  umask : Z;
  fs : gmap Path file;
  diag : list diagnostic;
}.

Definition with_fs (w : World) (f : gmap Path file) : World :=
  mkWorld (environ w) (home w) (umask w) f (diag w).
Definition with_diag (w : World) (d : list diagnostic) : World :=
  mkWorld (environ w) (home w) (umask w) (fs w) d.

Definition M (A : Type) : Type := World -> res A * World.

Definition ret {A} (a : A) : M A := fun w => (Ok a, w).
Definition raise {A} (e : exn) : M A := fun w => (Raise e, w).
Definition bind {A B} (m : M A) (k : A -> M B) : M B :=
  fun w => match m w with
           | (Ok a, w') => k a w'
           | (Raise e, w') => (Raise e, w')
           end.
Definition lift {A} (r : res A) : M A := fun w => (r, w).

Notation "'let!' x ':=' e 'in' k" := (bind e (fun x => k))
  (at level 10, x pattern, e at level 100, k at level 200).

Definition assert_ (b : bool) : M unit :=
  if b then ret tt else raise AssertionError.

Definition emit (d : diagnostic) : M unit :=
  fun w => (Ok tt, with_diag w (diag w ++ [d])).

(** [os.environ.get(key)] *)
Definition environ_get (key : string) : M (option string) :=
  fun w => (Ok (environ w !! key), w).

Definition Path_home : M Path := fun w => (Ok (home w), w).

(** [path.exists()] *)
Definition exists_ (path : Path) : M bool :=
  fun w => (Ok (bool_decide (is_Some (fs w !! path))), w).

(** [path.stat().st_mode], for a path that exists. *)
Definition stat_mode (path : Path) : M (option Z) :=
  fun w => (Ok (st_mode <$> fs w !! path), w).

(** [with open(path, "r") as f: <read f>] *)
Definition read_file (path : Path) : M content :=
  fun w => match fs w !! path with
           | Some f => (Ok (body f), w)
           | None => (Raise FileNotFoundError, w)
           end.

Definition S_IFREG : Z := 32768.  (* 0o100000 *)
Definition S_IRUSR : Z := 256.    (* 0o400 *)
Definition S_IWUSR : Z := 128.    (* 0o200 *)

(** The mode of a file created with [mode]: the permission bits of [mode]
    that the umask leaves, on a regular file. *)
Definition created_mode (mode umask : Z) : Z :=
  Z.lor S_IFREG (Z.ldiff (Z.land mode 4095) umask).

(** [path.touch(mode=mode)]: creates the file, empty, when it is missing;
    an existing file keeps its mode and its text. *)
Definition touch (path : Path) (mode : Z) : M unit :=
  fun w => match fs w !! path with
           | Some _ => (Ok tt, w)
           | None =>
               (Ok tt, with_fs w (<[path := mkFile (created_mode mode (umask w)) CEmpty]> (fs w)))
           end.

(** [with path.open('w') as f: <write c to f>]: the text of the file is
    replaced; a missing file is created with the default mode. *)
Definition write_file (path : Path) (c : content) : M unit :=
  fun w =>
    let mode := match fs w !! path with
                | Some f => st_mode f
                | None => created_mode 438 (umask w)   (* 0o666 *)
                end in
    (Ok tt, with_fs w (<[path := mkFile mode c]> (fs w))).

(** ** yaml *)

Module Yaml.

(** [yaml.safe_dump(v, f)] *)
Definition safe_dump (v : pyval) : content := CYaml v.

(** [yaml.safe_load(f)]: the document that was dumped; [None] for a file
    without text; an error for text written by [ConfigParser.write]. Such
    text opens with a bracketed section header on a line of its own, which
    the loader reads as a complete flow sequence, and goes on with lines
    [key = value], which it rejects after that sequence; it is never
    loaded as a mapping. *)
Definition safe_load (c : content) : res pyval :=
  match c with
  | CEmpty => Ok PNone
  | CYaml v => Ok v
  | CIni _ => Raise YAMLError
  end.

End Yaml.

(** [config = ConfigParser(); config.read(path)]: a missing file is
    skipped; YAML text has no section header before its first line. *)
Definition ConfigParser_read (path : Path) : M ConfigParser :=
  fun w => match fs w !! path with
           | None => (Ok Configparser.empty, w)
           | Some f =>
               match body f with
               | CEmpty => (Ok Configparser.empty, w)
               | CIni c => (Ok c, w)
               | CYaml _ => (Raise MissingSectionHeaderError, w)
               end
           end.

(** [config.write(f)]: a parser without sections and defaults writes
    nothing; the text written for any other parser is the one that is read
    back as [read_back c]. *)
Definition ConfigParser_write (c : ConfigParser) : content :=
  match _defaults c, _sections c with
  | [], [] => CEmpty
  | _, _ => CIni (read_back c)
  end.

(** ** benchopt/config.py *)

Definition nl : string := String "010" EmptyString.

Definition CONFIG_FILE_NAME : string := "benchopt.yml".

Definition GLOBAL_CONFIG_FILE_MODE : Z := Z.lor (Z.lor S_IFREG S_IRUSR) S_IWUSR.

Section Config.

(** [benchopt.constants.PLOT_KINDS], a constant of another module. *)
Variable PLOT_KINDS : list string.
(** [os.environ] when the module is imported. *)
Variable import_environ : gmap string string.

Definition DEFAULT_GLOBAL_CONFIG : list (string * pyval) :=
  [("debug", PBool false);
   ("raise_install_error", PBool false);
   ("github_token", PNone);
   ("data_dir", PStr "./data/");
   ("conda_cmd", PStr "conda");
   ("shell", PStr (default "bash" (import_environ !! "SHELL")));
   ("cache", PNone)]%string.

Definition DEFAULT_BENCHMARK_CONFIG : list (string * pyval) :=
  [("plots", PList (map PStr PLOT_KINDS));
   ("plot_configs", PDict ∅)]%string.

Definition check_ini (path : Path) : M Path :=
  let! here := exists_ path in
  let! legacy := exists_ (with_suffix path ".ini") in
  if negb here && legacy then ret (with_suffix path ".ini") else ret path.

Definition get_global_config_file : M Path :=
  let! config_file := environ_get "BENCHOPT_CONFIG" in
  let! config_file :=
    match config_file with
    | Some config_file =>
        let config_file := Path_of config_file in
        let! e := exists_ config_file in
        let! _ := assert_ e in
        ret config_file
    | None =>
        let! config_file := check_ini (joinpath (Path_of ".") CONFIG_FILE_NAME) in
        let! e := exists_ config_file in
        if negb e then
          let! h := Path_home in
          check_ini (joinpath (joinpath h ".config") CONFIG_FILE_NAME)
        else ret config_file
    end in
  let! mode := stat_mode config_file in
  let! _ :=
    match mode with
    | Some mode =>
        if bool_decide (mode <> GLOBAL_CONFIG_FILE_MODE)
        then emit (Warn_file_mode config_file mode)
        else ret tt
    | None => ret tt
    end in
  ret config_file.

Definition parse_list (value : string) : list string :=
  let values := Text.split value in
  List.flat_map
    (fun value => map Text.strip (List.filter Text.nonempty (Text.split_on "," value)))
    values.

Definition parse_value (value default_value : pyval) : M pyval :=
  match default_value with
  | PBool _ =>
      let! value :=
        match value with
        | PStr value =>
            let value := Text.lower value in
            match Alist.get value BOOLEAN_STATES with
            | Some b => ret (PBool b)
            | None =>
                let! _ := emit (Warn_not_a_boolean value) in
                ret default_value
            end
        | _ => ret value
        end in
      let! _ := assert_ (isinstance_bool value) in
      ret value
  | PList _ =>
      let! value :=
        match value with
        | PStr value => ret (PList (map PStr (parse_list value)))
        | _ => ret value
        end in
      let! _ := assert_ (isinstance_list value) in
      ret value
  | _ => ret value
  end.

(** ['\n'.join(value)] for the iterables of [pyval]: the items of a list,
    the keys of a dictionary (in the order of the map, which is not
    Python's); an item that is not a [str] is a [TypeError]. *)
Fixpoint str_items (l : list pyval) : res (list string) :=
  match l with
  | [] => Ok []
  | PStr s :: r => res_bind (str_items r) (fun r' => Ok (s :: r'))
  | _ :: _ => Raise TypeError
  end.

Definition reverse_parse (default_value value : pyval) : res pyval :=
  if isinstance_bool value || isinstance_bool default_value then
    match value with
    | PBool b =>
        if isinstance_bool default_value
        then Ok (PStr (if b then "true" else "false"))
        else Raise AssertionError
    | PStr s =>
        if Alist.mem (Text.lower s) BOOLEAN_STATES then Ok value
        else Raise AssertionError
    | _ => Raise AttributeError   (* value.lower() *)
    end
  else if isinstance_Iterable value && negb (isinstance_str value) then
    if isinstance_list default_value then
      res_bind
        (match value with
         | PList l => str_items l
         | PDict d => Ok (fst <$> map_to_list d)
         | _ => Ok []
         end)
        (fun items => Ok (PStr (nl +:+ Text.join nl items)))
    else Raise AssertionError
  else Ok value.

(** The dictionary comprehension of [convert_ini_to_yml], key by key. *)
Fixpoint convert_values (config_ini : ConfigParser) (sec : string)
    (default : list (string * pyval)) (options : list string)
    (values : gmap string pyval) : M (gmap string pyval) :=
  match options with
  | [] => ret values
  | key :: options =>
      let! raw := lift (Configparser.get config_ini sec key) in
      match Alist.get key default with
      | None => raise (KeyError key)
      | Some default_value =>
          let! value := parse_value (PStr raw) default_value in
          convert_values config_ini sec default options (<[key := value]> values)
      end
  end.

(** The loop over the sections of [convert_ini_to_yml]. *)
Fixpoint convert_sections (config_ini : ConfigParser) (secs : list string)
    (config : gmap string pyval) : M (gmap string pyval) :=
  match secs with
  | [] => ret config
  | sec :: secs =>
      let default :=
        if decide (sec = "benchopt"%string) then DEFAULT_GLOBAL_CONFIG
        else DEFAULT_BENCHMARK_CONFIG in
      let! options := lift (Configparser.options config_ini sec) in
      let! values := convert_values config_ini sec default options ∅ in
      let config :=
        if decide (sec = "benchopt"%string) then values ∪ config   (* config.update of values *)
        else <[sec := PDict values]> config in
      convert_sections config_ini secs config
  end.

Definition convert_ini_to_yml (config_file : Path) : M unit :=
  let! _ := emit (Warn_ini_deprecated config_file) in
  let! config_ini := ConfigParser_read config_file in
  let! config := convert_sections config_ini (Configparser.sections config_ini) ∅ in
  let config_file := with_suffix config_file ".yml" in
  let! _ := touch config_file GLOBAL_CONFIG_FILE_MODE in
  write_file config_file (Yaml.safe_dump (PDict config)).

Definition unknown_setting_message (name benchmark_name : string)
    (default_config : list (string * pyval)) : string :=
  ("ERROR: " +:+ name +:+ " is not a setting for " +:+ benchmark_name
     +:+ ". Possible settings are:" +:+ nl +:+ "  - "
     +:+ Text.join (nl +:+ "  - ") (Alist.keys default_config))%string.

Definition set_setting (name : string) (value : pyval)
    (config_file : option Path) (benchmark_name : option string) : M unit :=
  let! config_file :=
    match config_file with
    | None => get_global_config_file
    | Some config_file => ret config_file
    end in
  (* Get default value *)
  let '(benchmark_name, default_config) :=
    match benchmark_name with
    | None => ("benchopt"%string, DEFAULT_GLOBAL_CONFIG)
    | Some benchmark_name => (benchmark_name, DEFAULT_BENCHMARK_CONFIG)
    end in
  match Alist.get name default_config with
  | None =>
      let! _ := emit (Printed (unknown_setting_message name benchmark_name default_config)) in
      raise (SystemExit 1)
  | Some default_value =>
      (* Get global config file *)
      let! config := ConfigParser_read config_file in
      let config :=
        if Configparser.contains benchmark_name config then config
        else Configparser.add_section benchmark_name config in
      let! raw := lift (reverse_parse default_value value) in
      let! config := lift (Configparser.setitem config benchmark_name name raw) in
      (* Create config file with the correct permission. *)
      let! e := exists_ config_file in
      let! _ := if negb e then touch config_file GLOBAL_CONFIG_FILE_MODE else ret tt in
      write_file config_file (ConfigParser_write config)
  end.

(** [benchmark_name in config.keys()]: the keys are strings, [None] is
    none of them. *)
Definition in_keys (benchmark_name : option string) (config : gmap string pyval) : bool :=
  match benchmark_name with
  | Some b => bool_decide (is_Some (config !! b))
  | None => false
  end.

Definition get_setting (name : string) (config_file : option Path)
    (benchmark_name : option string) (default_config : option (gmap string pyval))
    : M pyval :=
  let! config_file :=
    match config_file with
    | None => get_global_config_file
    | Some config_file => ret config_file
    end in
  (* Get default value *)
  let default_config_ :=
    match benchmark_name with
    | None => DEFAULT_GLOBAL_CONFIG
    | Some _ => DEFAULT_BENCHMARK_CONFIG
    end in
  match Alist.get name default_config_ with
  | None => raise AssertionError
  | Some registry_default =>
      let default_config := default ∅ default_config in
      let default_value := default registry_default (default_config !! name) in
      (* Handle deprecated .ini config file *)
      let! config_file :=
        if decide (suffix config_file = ".ini"%string) then
          let! _ := convert_ini_to_yml config_file in
          ret (with_suffix config_file ".yml")
        else ret config_file in
      (* Load the config from the yaml file if the file exists. *)
      let! e := exists_ config_file in
      let! config :=
        if e then
          let! f := read_file config_file in
          lift (Yaml.safe_load f)
        else ret (PDict ∅) in
      (* Get value from config file or keep the default value. *)
      let! value :=
        match config with
        | PDict config =>
            if in_keys benchmark_name config then
              match config !! default EmptyString benchmark_name with
              | Some (PDict section) => ret (default default_value (section !! name))
              | _ => raise AttributeError
              end
            else ret (default default_value (config !! name))
        | _ => raise AttributeError
        end in
      (* Get the value for the environment variable *)
      let env_var_name := ("BENCHOPT_" +:+ Text.upper name)%string in
      let! env := environ_get env_var_name in
      let value := match env with Some text => PStr text | None => value end in
      (* Parse the value to the correct type *)
      parse_value value default_value
  end.

(** [BooleanFlag]: the flag holds a name, and its truth value is a fresh
    [get_setting] each time it is taken. *)
Record BooleanFlag := mkBooleanFlag { flag_name : string }.

(** [BooleanFlag.__bool__] *)
Definition BooleanFlag_bool (self : BooleanFlag) : M pyval :=
  get_setting (flag_name self) None None None.

(** [bool(flag)]: Python refuses a [__bool__] that returns anything but a
    [bool]. *)
Definition truth_value (self : BooleanFlag) : M bool :=
  let! v := BooleanFlag_bool self in
  match v with
  | PBool b => ret b
  | _ => raise TypeError
  end.

Definition DEBUG : BooleanFlag := mkBooleanFlag "debug".
Definition RAISE_INSTALL_ERROR : BooleanFlag := mkBooleanFlag "raise_install_error".

End Config.

(** * Vocabulary of the properties *)

(** A string without blank character. *)
Definition blank_free (s : string) : bool := negb (Text.any_char Text.isspace s).

(** An item that a list setting can hold and give back: not empty, and
    free of commas and blanks. *)
Definition clean_item (s : string) : bool :=
  Text.nonempty s && blank_free s && negb (Text.contains "," s).

(** A world for examples: no environment variable, no file, umask 022. *)
Definition fresh_world : World :=
  mkWorld ∅ ["/"; "home"; "user"]%string 18 ∅ [].

(** Serialising a value and parsing the text back, against one default. *)
Definition serialize_then_parse (default_value value : pyval) : M pyval :=
  let! raw := lift (reverse_parse default_value value) in
  parse_value raw default_value.

(** The values of the three shapes that survive the round trip: every
    boolean, every string, and the lists whose items are not empty and
    hold neither comma nor blank. *)
Inductive roundtrip_value : pyval -> pyval -> Prop :=
| roundtrip_bool (d b : bool) : roundtrip_value (PBool d) (PBool b)
| roundtrip_str (d s : string) : roundtrip_value (PStr d) (PStr s)
| roundtrip_list (d : list pyval) (l : list string) :
    Forall (fun s => clean_item s = true) l ->
    roundtrip_value (PList d) (PList (map PStr l)).

(** The list coercion in the words of the specification: the text is cut
    at newlines and at commas only, each fragment is trimmed, the empty
    ones are dropped. *)
Definition parse_list_as_specified (value : string) : list string :=
  List.filter Text.nonempty
    (map Text.strip (List.flat_map (Text.split_on ",") (Text.split_on "010" value))).

(** The project-local and the user-home configuration files, in the
    canonical form; [with_suffix _ ".ini"] is the legacy form. *)
Definition local_config_file : Path := joinpath (Path_of ".") CONFIG_FILE_NAME.
Definition home_config_file (w : World) : Path :=
  joinpath (joinpath (home w) ".config") CONFIG_FILE_NAME.

(** The first statement of [set_setting] and of [get_setting]: the file
    given by the caller, or the one the locator returns. *)
Definition located (config_file : option Path) : M Path :=
  match config_file with
  | None => get_global_config_file
  | Some config_file => ret config_file
  end.

(** The document that [get_setting] loads from a store in the current
    format: the empty mapping for a missing file, the mapping that a YAML
    file holds. *)
Definition store_document (w : World) (p : Path) : option (gmap string pyval) :=
  match fs w !! p with
  | None => Some ∅
  | Some f => match body f with CYaml (PDict d) => Some d | _ => None end
  end.

(** The entry of the document under the name of the benchmark, when there
    is one, is a mapping. *)
Definition namespace_ok (benchmark_name : option string) (d : gmap string pyval) : bool :=
  match benchmark_name with
  | Some b => match d !! b with Some (PDict _) | None => true | Some _ => false end
  | None => true
  end.

(** The value the document gives for an option: the entry of the
    benchmark's sub-namespace when the document has that sub-namespace,
    the top-level entry otherwise, and the default when the entry is
    missing. *)
Definition stored_value (benchmark_name : option string) (d : gmap string pyval)
    (name : string) (default_value : pyval) : pyval :=
  match benchmark_name with
  | Some b =>
      match d !! b with
      | Some (PDict section) => default default_value (section !! name)
      | _ => default default_value (d !! name)
      end
  | None => default default_value (d !! name)
  end.

(** The default that the caller overrides, or that of the registry. *)
Definition effective_default (registry_default : pyval)
    (default_config : option (gmap string pyval)) (name : string) : pyval :=
  default registry_default (default ∅ default_config !! name).

(** The plot kinds that the documentation of the [plots] option lists;
    they stand for [PLOT_KINDS] in the examples. *)
Definition documented_plot_kinds : list string :=
  ["objective_curve"; "suboptimality_curve"; "relative_suboptimality_curve";
   "bar_chart"]%string.

(** The legacy file of the specification's migration example: a benchmark
    section [bench1] with [opt: true], the reserved section with
    [debug: yes]. *)
Definition legacy_with_opt : ConfigParser :=
  mkConfigParser []
    [("bench1", [("opt", "true")]); ("benchopt", [("debug", "yes")])]%string.

(** The same file with a registered benchmark option in place of [opt]. *)
Definition legacy_with_plots : ConfigParser :=
  mkConfigParser []
    [("bench1", [("plots", "bar_chart")]); ("benchopt", [("debug", "yes")])]%string.

Definition legacy_world (c : ConfigParser) : World :=
  with_fs fresh_world {[ ["benchopt.ini"]%string := mkFile GLOBAL_CONFIG_FILE_MODE (CIni c) ]}.


(** A store in the current format at the project-local path. *)
Definition store_world (environ : gmap string string) (d : gmap string pyval) : World :=
  mkWorld environ ["/"; "home"; "user"]%string 18
    {[ local_config_file := mkFile GLOBAL_CONFIG_FILE_MODE (CYaml (PDict d)) ]} [].

Section Vocabulary.

Variable PLOT_KINDS : list string.
Variable import_environ : gmap string string.

(** The registry that applies to a query. *)
Definition registry (benchmark_name : option string) : list (string * pyval) :=
  match benchmark_name with
  | None => DEFAULT_GLOBAL_CONFIG import_environ
  | Some _ => DEFAULT_BENCHMARK_CONFIG PLOT_KINDS
  end.

(** The last steps of [get_setting], from the loading of the file on. *)
Definition resolve_from (name : string) (benchmark_name : option string)
    (default_value : pyval) (config_file : Path) : M pyval :=
  let! e := exists_ config_file in
  let! config :=
    if e then
      let! f := read_file config_file in
      lift (Yaml.safe_load f)
    else ret (PDict ∅) in
  let! value :=
    match config with
    | PDict config =>
        if in_keys benchmark_name config then
          match config !! default EmptyString benchmark_name with
          | Some (PDict section) => ret (default default_value (section !! name))
          | _ => raise AttributeError
          end
        else ret (default default_value (config !! name))
    | _ => raise AttributeError
    end in
  let env_var_name := ("BENCHOPT_" +:+ Text.upper name)%string in
  let! env := environ_get env_var_name in
  let value := match env with Some text => PStr text | None => value end in
  parse_value value default_value.

(** The registry that types the keys of a section of a legacy file. *)
Definition section_registry (sec : string) : list (string * pyval) :=
  if decide (sec = "benchopt"%string) then DEFAULT_GLOBAL_CONFIG import_environ
  else DEFAULT_BENCHMARK_CONFIG PLOT_KINDS.

(** [key] is an option of section [sec] of the file. *)
Definition option_of (c : ConfigParser) (sec key : string) : Prop :=
  sec ∈ Configparser.sections c /\
  exists opts, Configparser.options c sec = Ok opts /\ key ∈ opts.

(** [ConfigParser.get] returns a value for every option of the file (no
    value holds a malformed [%] reference). *)
Definition values_readable (c : ConfigParser) : Prop :=
  forall sec key, option_of c sec key ->
                  exists v, Configparser.get c sec key = Ok v.

Definition unregistered_key (c : ConfigParser) (sec key : string) : Prop :=
  option_of c sec key /\ Alist.get key (section_registry sec) = None.

(** The store at [p] loads as the mapping [d]: directly when [p] is in the
    current format, after the migration when [p] has the legacy suffix.
    The third argument is the process state once the store is loaded. *)
Inductive store_loads (w1 : World) (p : Path) : World -> gmap string pyval -> Prop :=
| loads_current (d : gmap string pyval) :
    suffix p <> ".ini"%string ->
    store_document w1 p = Some d ->
    store_loads w1 p w1 d
| loads_legacy (w2 : World) (d : gmap string pyval) :
    suffix p = ".ini"%string ->
    convert_ini_to_yml PLOT_KINDS import_environ p w1 = (Ok tt, w2) ->
    store_document w2 (with_suffix p ".yml") = Some d ->
    store_loads w1 p w2 d.

End Vocabulary.

(** The state after the locator has looked at the mode of the file [f] at
    [p]: one warning more when the mode is not the owner-only mode. *)
Definition mode_checked (w : World) (p : Path) (f : file) : World :=
  if bool_decide (st_mode f <> GLOBAL_CONFIG_FILE_MODE)
  then with_diag w (diag w ++ [Warn_file_mode p (st_mode f)])
  else w.

(** The values that [parse_value] lets through for a default: a text, or
    a value that has the shape of the default already, when the default
    is a boolean or a list; any value for the other defaults. *)
Definition accepted (default_value value : pyval) : bool :=
  match default_value with
  | PBool _ => isinstance_str value || isinstance_bool value
  | PList _ => isinstance_str value || isinstance_list value
  | _ => true
  end.

(** The result has the shape of the default, when the default is a
    boolean or a list. *)
Definition shaped_like (default_value result : pyval) : bool :=
  match default_value with
  | PBool _ => isinstance_bool result
  | PList _ => isinstance_list result
  | _ => true
  end.

(** The section that [set_setting] writes to. *)
Definition section_name (benchmark_name : option string) : string :=
  default "benchopt"%string benchmark_name.

(** The value stored for an option of a section other than [DEFAULT], as
    written in the file. *)
Definition raw_option (c : ConfigParser) (section key : string) : option string :=
  match Alist.get section (_sections c) with
  | Some opts => Alist.get key opts
  | None => None
  end.

(** The mode of the file at [p] once it has been created if missing and
    written: its mode when it exists, the mode of a fresh configuration
    file otherwise. *)
Definition written_mode (w : World) (p : Path) : Z :=
  match fs w !! p with
  | Some f => st_mode f
  | None => created_mode GLOBAL_CONFIG_FILE_MODE (umask w)
  end.

(** The section in which the option is set, created when it is missing. *)
Definition with_section (section : string) (config : ConfigParser) : ConfigParser :=
  if Configparser.contains section config then config
  else Configparser.add_section section config.

(** A computation that leaves the files and the environment as they
    are, whatever it returns or raises. *)
Definition reads_only {A} (m : M A) : Prop :=
  forall w, fs (snd (m w)) = fs w /\ environ (snd (m w)) = environ w
            /\ umask (snd (m w)) = umask w.

(** The boolean tokens of the specification, by the boolean they stand
    for. *)
Definition true_tokens : list string := ["1"; "yes"; "true"; "on"]%string.
Definition false_tokens : list string := ["0"; "no"; "false"; "off"]%string.

(** Two characters that are equal, or that are the capital and the small
    form of one ASCII letter. *)
Definition same_letter (a b : ascii) : bool :=
  let m := N_of_ascii a in
  let n := N_of_ascii b in
  ((m =? n) || ((65 <=? m) && (m <=? 90) && (n =? m + 32))
            || ((65 <=? n) && (n <=? 90) && (m =? n + 32)))%N.

(** Two texts that differ at most by the case of their ASCII letters. *)
Fixpoint same_text (s t : string) : bool :=
  match s, t with
  | EmptyString, EmptyString => true
  | String a s, String b t => same_letter a b && same_text s t
  | _, _ => false
  end.

(** The text is one of the tokens, whatever the case of its letters. *)
Definition spells (text : string) (tokens : list string) : bool :=
  existsb (same_text text) tokens.

(** The characters of the tokens: small ASCII letters and digits. *)
Definition token_char (c : ascii) : bool :=
  let n := N_of_ascii c in
  (((97 <=? n) && (n <=? 122)) || ((48 <=? n) && (n <=? 57)))%N.

(** No file is given and [BENCHOPT_CONFIG] names a file that does not
    exist: the one case in which the locator fails. *)
Definition override_missing (config_file : option Path) (w : World) : bool :=
  match config_file, environ w !! "BENCHOPT_CONFIG"%string with
  | None, Some s => bool_decide (fs w !! Path_of s = None)
  | _, _ => false
  end.

(** A value that is not a dictionary: its serialisation does not depend
    on the order of the keys of a mapping. *)
Definition ordered_value (value : pyval) : bool :=
  match value with PDict _ => false | _ => true end.

(** A text without carriage return, and a text without any line break:
    what is written to a legacy file and read back from the same lines. *)
Definition no_carriage_return (s : string) : bool := negb (Text.contains "013" s).
Definition one_line (s : string) : bool :=
  negb (Text.contains "010" s) && negb (Text.contains "013" s).

(** A legacy file whose only section is [DEFAULT], with a key that no
    registry holds, and one with a malformed [%] reference in the value of
    such a key. *)
Definition legacy_default_only : ConfigParser :=
  mkConfigParser [("opt", "true")]%string [].
Definition legacy_with_percent : ConfigParser :=
  mkConfigParser [] [("bench1", [("opt", "50%")])]%string.


Ltac run_step :=
  unfold bind, ret, raise, lift, emit, assert_, environ_get, exists_, stat_mode,
    read_file, Path_home; cbn beta iota.

Ltac locator_run :=
  unfold get_global_config_file, check_ini, mode_checked; run_step;
  repeat match goal with
         | H : _ !! _ = _ |- _ => progress (rewrite H)
         | _ => progress (cbn -[with_suffix Path_of joinpath])
         end;
  try match goal with
      | |- context [bool_decide (?m <> GLOBAL_CONFIG_FILE_MODE)] =>
          destruct (bool_decide (m <> GLOBAL_CONFIG_FILE_MODE))
      end;
  try reflexivity.

(** * Properties *)

(** ** Text *)

Module TextFacts.
Import Text.

Lemma blank_free_cons c s :
  blank_free (String c s) = true -> isspace c = false /\ blank_free s = true.
Proof.
  unfold blank_free. simpl. destruct (isspace c); simpl; [discriminate | auto].
Qed.

Lemma words_word w :
  nonempty w = true -> blank_free w = true -> words w = (true, [w]).
Proof.
  induction w as [| c w IH]; [discriminate |].
  intros _ Hb. apply blank_free_cons in Hb as [Hc Hw].
  simpl. destruct w as [| c' w'].
  - simpl. rewrite Hc. reflexivity.
  - rewrite (IH eq_refl Hw), Hc. reflexivity.
Qed.

Lemma words_word_blank w c0 r :
  nonempty w = true -> blank_free w = true -> isspace c0 = true ->
  words (w +:+ String c0 r) = (true, w :: snd (words r)).
Proof.
  induction w as [| c w IH]; [discriminate |].
  intros _ Hb H0. apply blank_free_cons in Hb as [Hc Hw].
  destruct w as [| c' w'].
  - simpl. rewrite H0. destruct (words r) as [i ws]. simpl. rewrite Hc. reflexivity.
  - specialize (IH eq_refl Hw H0).
    change (String c (String c' w') +:+ String c0 r)
      with (String c (String c' w' +:+ String c0 r)).
    cbn [words]. rewrite IH, Hc. reflexivity.
Qed.

Lemma split_join_lines (l : list string) :
  Forall (fun s => nonempty s = true /\ blank_free s = true) l ->
  split (join (String "010" EmptyString) l) = l.
Proof.
  induction 1 as [| x l [Hx1 Hx2] Hl IH]; [reflexivity |].
  destruct l as [| y l'].
  - unfold split. simpl. rewrite (words_word x) by assumption. reflexivity.
  - unfold split in *.
    change (join (String "010" EmptyString) (x :: y :: l'))
      with (x +:+ String "010" (join (String "010" EmptyString) (y :: l'))).
    rewrite words_word_blank by (assumption || reflexivity).
    simpl snd. f_equal. exact IH.
Qed.

Lemma split_on_absent sep s :
  contains sep s = false -> split_on sep s = [s].
Proof.
  induction s as [| c s IH]; [reflexivity |].
  simpl. intros H. apply orb_false_iff in H as [Hc Hs].
  rewrite Hc, (IH Hs). reflexivity.
Qed.

Lemma rstrip_blank_free s : blank_free s = true -> rstrip s = s.
Proof.
  induction s as [| c s IH]; [reflexivity |].
  intros Hb. apply blank_free_cons in Hb as [Hc Hs].
  simpl. rewrite (IH Hs). destruct s; [rewrite Hc |]; reflexivity.
Qed.

Lemma lstrip_blank_free s : blank_free s = true -> lstrip s = s.
Proof.
  destruct s as [| c s]; [reflexivity |].
  intros Hb. apply blank_free_cons in Hb as [Hc _]. simpl. rewrite Hc. reflexivity.
Qed.

Lemma strip_blank_free s : blank_free s = true -> strip s = s.
Proof.
  intros H. unfold strip. rewrite (rstrip_blank_free s H). apply lstrip_blank_free, H.
Qed.

Lemma clean_item_spec s :
  clean_item s = true ->
  nonempty s = true /\ blank_free s = true /\ contains "," s = false.
Proof.
  unfold clean_item. intros H.
  apply andb_true_iff in H as [H H3]. apply andb_true_iff in H as [H1 H2].
  apply negb_true_iff in H3. auto.
Qed.

End TextFacts.
Import TextFacts.

(** ** pathlib *)

Module PathlibFacts.

Lemma rsplit_dot_app stem ext :
  Text.contains "." ext = false ->
  rsplit_dot (stem +:+ String "." ext) = Some (stem, ext).
Proof.
  intros Hext.
  assert (Hnone : rsplit_dot ext = None).
  { induction ext as [| c e IH]; [reflexivity |].
    simpl in Hext. apply orb_false_iff in Hext as [Hc He].
    simpl. rewrite (IH He), Hc. reflexivity. }
  induction stem as [| c s IH].
  - simpl. rewrite Hnone. reflexivity.
  - change (String c s +:+ String "." ext) with (String c (s +:+ String "." ext)).
    cbn [rsplit_dot]. rewrite IH. reflexivity.
Qed.

Lemma name_snoc (p : Path) n : name (p ++ [n]) = n.
Proof. unfold name. rewrite last_snoc. reflexivity. Qed.

Lemma with_suffix_snoc (p : Path) n s :
  with_suffix (p ++ [n]) s =
  p ++ [match split_suffix n with Some (st, _) => st | None => n end +:+ s].
Proof.
  unfold with_suffix. rewrite name_snoc, removelast_last.
  destruct p; reflexivity.
Qed.

Lemma suffix_snoc (p : Path) n :
  suffix (p ++ [n]) = match split_suffix n with
                      | Some (_, ext) => String "." ext
                      | None => EmptyString
                      end.
Proof. unfold suffix. rewrite name_snoc. reflexivity. Qed.

(** A path with a suffix has a last component. *)
Lemma suffix_nonempty_inv (p : Path) :
  suffix p <> EmptyString ->
  exists q n stem ext, p = q ++ [n] /\ split_suffix n = Some (stem, ext).
Proof.
  intros H. destruct (decide (p = [])) as [-> | Hp]; [contradiction H; reflexivity |].
  destruct (exists_last Hp) as (q & n & ->).
  rewrite suffix_snoc in H.
  destruct (split_suffix n) as [[stem ext] |] eqn:E; [| contradiction H; reflexivity].
  eauto 6.
Qed.

Lemma split_suffix_yml stem :
  Text.nonempty stem = true ->
  split_suffix (stem +:+ ".yml") = Some (stem, "yml"%string).
Proof.
  intros H. unfold split_suffix.
  change (stem +:+ ".yml")%string with (stem +:+ String "." "yml").
  rewrite rsplit_dot_app by reflexivity. rewrite H. reflexivity.
Qed.

Lemma split_suffix_stem n stem ext :
  split_suffix n = Some (stem, ext) -> Text.nonempty stem = true.
Proof.
  unfold split_suffix. destruct (rsplit_dot n) as [[s e] |]; [| discriminate].
  destruct (Text.nonempty s) eqn:Hs; simpl; [| discriminate].
  destruct (Text.nonempty e); simpl; [| discriminate].
  intros [= <- <-]. exact Hs.
Qed.

(** Replacing the suffix of a path that has one gives a path with the
    new suffix. *)
Lemma suffix_with_suffix_yml (p : Path) :
  suffix p <> EmptyString -> suffix (with_suffix p ".yml") = ".yml"%string.
Proof.
  intros H. destruct (suffix_nonempty_inv p H) as (q & n & stem & ext & -> & E).
  rewrite with_suffix_snoc, E, suffix_snoc.
  rewrite split_suffix_yml by (eapply split_suffix_stem; eauto). reflexivity.
Qed.

Lemma with_suffix_yml_neq (p : Path) :
  suffix p = ".ini"%string -> with_suffix p ".yml" <> p.
Proof.
  intros H E.
  assert (Hs : suffix (with_suffix p ".yml") = ".yml"%string)
    by (apply suffix_with_suffix_yml; rewrite H; discriminate).
  rewrite E, H in Hs. discriminate.
Qed.

End PathlibFacts.
Import PathlibFacts.

(** ** The type coercion: [parse_value] and [reverse_parse] *)

Lemma parse_list_nl (s : string) : parse_list (nl +:+ s) = parse_list s.
Proof.
  unfold parse_list, Text.split. change (nl +:+ s) with (String "010" s).
  cbn [Text.words]. destruct (Text.words s) as [i ws]. reflexivity.
Qed.

Lemma parse_list_join (l : list string) :
  Forall (fun s => clean_item s = true) l -> parse_list (Text.join nl l) = l.
Proof.
  intros Hl. unfold parse_list, nl.
  rewrite split_join_lines.
  - induction Hl as [| x l Hx _ IH]; [reflexivity |].
    apply clean_item_spec in Hx as (Hx1 & Hx2 & Hx3).
    cbn [List.flat_map]. rewrite IH, split_on_absent by exact Hx3.
    cbn [List.filter]. rewrite Hx1. cbn [map]. rewrite strip_blank_free by exact Hx2.
    reflexivity.
  - eapply Forall_impl; [exact Hl |].
    intros s Hs. apply clean_item_spec in Hs. tauto.
Qed.

Lemma str_items_strs (l : list string) : str_items (map PStr l) = Ok l.
Proof. induction l as [| x l IH]; [reflexivity |]. simpl. rewrite IH. reflexivity. Qed.

(** Lower-casing a character gives a small letter or a digit exactly when
    the character is that one, or its capital. *)
Lemma same_letter_lower (a b : ascii) :
  token_char b = true ->
  same_letter a b = bool_decide (Text.lower_char a = b).
Proof.
  set (every := map ascii_of_nat (seq 0 256)).
  assert (Hevery : forall c, In c every).
  { intros c. rewrite <- (ascii_nat_embedding c).
    apply in_map, in_seq. pose proof (nat_ascii_bounded c). lia. }
  assert (Hall :
    forallb (fun a =>
      forallb (fun b =>
        implb (token_char b)
          (Bool.eqb (same_letter a b) (bool_decide (Text.lower_char a = b))))
        every) every = true) by (vm_compute; reflexivity).
  intros Hb.
  pose proof (proj1 (forallb_forall _ _) Hall a (Hevery a)) as Ha.
  cbn beta in Ha.
  pose proof (proj1 (forallb_forall _ _) Ha b (Hevery b)) as Hab.
  cbn beta in Hab. rewrite Hb in Hab. apply Bool.eqb_prop, Hab.
Qed.

Lemma same_text_lower (s t : string) :
  Text.any_char (fun c => negb (token_char c)) t = false ->
  same_text s t = bool_decide (Text.lower s = t).
Proof.
  revert s. induction t as [| b t IH]; intros s Ht.
  - destruct s; reflexivity.
  - cbn [Text.any_char] in Ht. apply orb_false_elim in Ht as [Hb Ht].
    apply negb_false_iff in Hb.
    destruct s as [| a s]; [reflexivity |].
    cbn [same_text]. rewrite (same_letter_lower a b Hb), (IH s Ht).
    change (Text.lower (String a s)) with (String (Text.lower_char a) (Text.lower s)).
    repeat case_bool_decide; simpl; congruence.
Qed.

(** The look-up of a lower-cased text in [BOOLEAN_STATES], in terms of the
    tokens of the specification. *)
Lemma BOOLEAN_STATES_tokens (token : string) :
  Alist.get (Text.lower token) BOOLEAN_STATES
  = if spells token true_tokens then Some true
    else if spells token false_tokens then Some false
    else None.
Proof.
  unfold spells, true_tokens, false_tokens. cbn [existsb].
  rewrite !same_text_lower by reflexivity.
  generalize (Text.lower token). intros l.
  unfold BOOLEAN_STATES. cbn [Alist.get].
  repeat match goal with
         | |- context [decide (?k = l)] =>
             destruct (decide (k = l)) as [<- | ?]; [reflexivity |]
         end.
  rewrite !bool_decide_eq_false_2 by congruence. reflexivity.
Qed.

(** C8: with a boolean default, a text that is one of [1], [yes], [true],
    [on], whatever the case of its letters, gives [True]; one of [0],
    [no], [false], [off], whatever the case, gives [False]; both without
    any diagnostic. Any other text gives the default after one warning.
    No text raises. *)
Theorem parse_value_boolean_token (token : string) (d : bool) (w : World) :
  parse_value (PStr token) (PBool d) w =
    if spells token true_tokens then (Ok (PBool true), w)
    else if spells token false_tokens then (Ok (PBool false), w)
    else (Ok (PBool d),
          with_diag w (diag w ++ [Warn_not_a_boolean (Text.lower token)])).
Proof.
  unfold parse_value, bind. rewrite BOOLEAN_STATES_tokens.
  destruct (spells token true_tokens); [reflexivity |].
  destruct (spells token false_tokens); reflexivity.
Qed.

(** Tokens in capitals and in mixed case, and a text that is no token. *)
Lemma parse_value_boolean_token_witness :
  parse_value (PStr "TRUE") (PBool false) fresh_world = (Ok (PBool true), fresh_world)
  /\ parse_value (PStr "Off") (PBool true) fresh_world = (Ok (PBool false), fresh_world)
  /\ parse_value (PStr "maybe") (PBool true) fresh_world
     = (Ok (PBool true), with_diag fresh_world [Warn_not_a_boolean "maybe"]).
Proof.
  split; [| split].
  - exact (parse_value_boolean_token "TRUE" false fresh_world).
  - exact (parse_value_boolean_token "Off" true fresh_world).
  - exact (parse_value_boolean_token "maybe" true fresh_world).
Defined.

(** C2, as amended: for a boolean, a string, or a list of items that are
    not empty and hold neither comma nor blank, parsing the serialised
    value against a default of the same shape gives the value back. *)
Theorem parse_reverse_parse_roundtrip (default_value value : pyval) (w : World) :
  roundtrip_value default_value value ->
  serialize_then_parse default_value value w = (Ok value, w).
Proof.
  intros H. unfold serialize_then_parse, bind, lift.
  destruct H as [d b | d s | d l Hl].
  - destruct b; reflexivity.
  - reflexivity.
  - unfold reverse_parse. cbn [isinstance_bool isinstance_Iterable isinstance_str
      isinstance_list orb andb negb].
    rewrite str_items_strs. cbn [res_bind].
    unfold parse_value, bind, ret.
    rewrite parse_list_nl, parse_list_join by exact Hl. reflexivity.
Qed.

Lemma parse_reverse_parse_roundtrip_witness :
  serialize_then_parse (PList []) (PList (map PStr ["a"; "b"]%string)) fresh_world
  = (Ok (PList (map PStr ["a"; "b"]%string)), fresh_world).
Proof.
  apply parse_reverse_parse_roundtrip. constructor.
  repeat constructor.
Defined.

(** C2, as stated, fails on a list with an item that holds a comma: the
    item comes back as two. *)
Lemma roundtrip_comma_item_counterexample :
  serialize_then_parse (PList []) (PList [PStr "a,b"]) fresh_world
    = (Ok (PList [PStr "a"; PStr "b"]), fresh_world)
  /\ PList [PStr "a"; PStr "b"] <> PList [PStr "a,b"].
Proof. split; [reflexivity | discriminate]. Qed.

(** C5: on the text [a b] the code cuts at the blank and returns two
    items, where cutting at newlines and commas only gives the single item
    [a b]; on the text of the specification's example both give
    [a], [b], [c]. *)
Theorem parse_value_list_cuts_at_blanks (d : list pyval) (w : World) :
  parse_value (PStr "a b") (PList d) w = (Ok (PList [PStr "a"; PStr "b"]), w)
  /\ parse_list_as_specified "a b" = ["a b"]%string
  /\ parse_value (PStr ("a, b" +:+ nl +:+ "c")) (PList d) w
     = (Ok (PList [PStr "a"; PStr "b"; PStr "c"]), w)
  /\ parse_list_as_specified ("a, b" +:+ nl +:+ "c") = ["a"; "b"; "c"]%string.
Proof. repeat split; reflexivity. Qed.

(** ** The file locator *)

(** The locator reads the files and may warn; it changes neither the files
    nor the environment. *)
Lemma get_global_config_file_frame (w : World) :
  fs (snd (get_global_config_file w)) = fs w /\
  environ (snd (get_global_config_file w)) = environ w /\
  umask (snd (get_global_config_file w)) = umask w.
Proof.
  unfold get_global_config_file, check_ini. run_step.
  destruct (environ w !! "BENCHOPT_CONFIG"%string) as [s |].
  - destruct (bool_decide (is_Some (fs w !! Path_of s))); cbn; [| auto].
    destruct (st_mode <$> fs w !! Path_of s) as [m |]; cbn; [| auto].
    destruct (bool_decide (m <> GLOBAL_CONFIG_FILE_MODE)); cbn; auto.
  - repeat match goal with
           | |- context [bool_decide ?P] => destruct (bool_decide P); cbn
           | |- context [st_mode <$> ?o] => destruct (st_mode <$> o); cbn
           end; auto.
Qed.

(** C3, as amended: without an override path, and with neither the
    project-local nor the user-home file present in canonical or legacy
    form, the locator returns the user-home canonical path, and leaves the
    process state as it was. *)
Theorem get_global_config_file_none_exist (w : World) :
  environ w !! "BENCHOPT_CONFIG"%string = None ->
  fs w !! local_config_file = None ->
  fs w !! with_suffix local_config_file ".ini" = None ->
  fs w !! home_config_file w = None ->
  fs w !! with_suffix (home_config_file w) ".ini" = None ->
  get_global_config_file w = (Ok (home_config_file w), w).
Proof.
  intros Henv Hl Hli Hh Hhi.
  unfold local_config_file, home_config_file in *.
  unfold get_global_config_file, check_ini. run_step.
  rewrite Henv. cbn beta iota.
  rewrite Hl, Hli. cbn. rewrite Hl. cbn.
  rewrite Hh, Hhi. cbn. rewrite Hh. reflexivity.
Qed.

Lemma get_global_config_file_none_exist_witness :
  get_global_config_file fresh_world
  = (Ok ["/"; "home"; "user"; ".config"; "benchopt.yml"]%string, fresh_world).
Proof.
  apply (get_global_config_file_none_exist fresh_world); reflexivity.
Defined.

(** C3, as stated, fails: in a world without any configuration file the
    locator returns the path under the home directory, which is not the
    project-local path. *)
Lemma locator_returns_home_counterexample :
  get_global_config_file fresh_world = (Ok (home_config_file fresh_world), fresh_world)
  /\ home_config_file fresh_world <> local_config_file.
Proof. split; [reflexivity | discriminate]. Qed.

(** ** Resolution: [get_setting] and [set_setting] *)

Lemma located_frame (config_file : option Path) (w : World) :
  fs (snd (located config_file w)) = fs w /\
  environ (snd (located config_file w)) = environ w /\
  umask (snd (located config_file w)) = umask w.
Proof.
  destruct config_file; [cbn; auto | apply get_global_config_file_frame].
Qed.

(** The locator fails in one case only: no file is given and the override
    names a file that does not exist. *)
Lemma located_override (config_file : option Path) (w : World) :
  if override_missing config_file w
  then located config_file w = (Raise AssertionError, w)
  else exists p w1, located config_file w = (Ok p, w1).
Proof.
  destruct config_file as [p |]; [cbn; eauto |].
  unfold override_missing, located, get_global_config_file, check_ini. run_step.
  destruct (environ w !! "BENCHOPT_CONFIG"%string) as [s |].
  - destruct (fs w !! Path_of s) as [f |] eqn:Hs.
    + rewrite bool_decide_eq_false_2 by discriminate.
      cbn -[Path_of]. rewrite ?Hs. cbn -[Path_of].
      destruct (bool_decide _); cbn; eauto.
    + rewrite bool_decide_eq_true_2 by reflexivity. reflexivity.
  - repeat match goal with
           | |- context [fs ?w0 !! ?q] =>
               lazymatch q with
               | context [fs] => fail
               | _ => destruct (fs w0 !! q) eqn:?
               end
           | _ => progress (cbn -[with_suffix Path_of joinpath])
           | |- context [bool_decide ?P] => destruct (bool_decide P)
           end; eauto.
Qed.

Section Resolution.

Variable PLOT_KINDS : list string.
Variable import_environ : gmap string string.

Lemma get_setting_unfold name config_file benchmark_name default_config :
  get_setting PLOT_KINDS import_environ name config_file benchmark_name default_config
  = let! config_file := located config_file in
    match Alist.get name (registry PLOT_KINDS import_environ benchmark_name) with
    | None => raise AssertionError
    | Some registry_default =>
        let default_value := effective_default registry_default default_config name in
        let! config_file :=
          if decide (suffix config_file = ".ini"%string) then
            let! _ := convert_ini_to_yml PLOT_KINDS import_environ config_file in
            ret (with_suffix config_file ".yml")
          else ret config_file in
        resolve_from name benchmark_name default_value config_file
    end.
Proof. reflexivity. Qed.

(** Resolution from a file that loads as the mapping [d]. *)
Lemma resolve_from_loaded name benchmark_name default_value q w d :
  store_document w q = Some d ->
  namespace_ok benchmark_name d = true ->
  resolve_from name benchmark_name default_value q w
  = parse_value
      match environ w !! ("BENCHOPT_" +:+ Text.upper name)%string with
      | Some text => PStr text
      | None => stored_value benchmark_name d name default_value
      end
      default_value w.
Proof.
  intros Hdoc Hns. unfold resolve_from. run_step.
  unfold store_document in Hdoc.
  destruct (fs w !! q) as [f |] eqn:Hq; cbn; rewrite ?Hq.
  - destruct (body f) as [| c | v]; try discriminate.
    destruct v; try discriminate. injection Hdoc as ->.
    cbn. unfold stored_value, namespace_ok, in_keys in *.
    destruct benchmark_name as [b |]; cbn; [| reflexivity].
    destruct (d !! b) as [v |] eqn:Hb; cbn; [| reflexivity].
    destruct v; try discriminate. reflexivity.
  - injection Hdoc as <-.
    cbn. unfold stored_value, in_keys.
    destruct benchmark_name as [b |]; reflexivity.
Qed.

(** Resolution of a benchmark-scoped query from a file that loads as the
    mapping [d], whatever the entry of the benchmark is. *)
Lemma resolve_from_scoped name b default_value q w d :
  store_document w q = Some d ->
  resolve_from name (Some b) default_value q w
  = match d !! b with
    | Some (PDict section) =>
        parse_value
          match environ w !! ("BENCHOPT_" +:+ Text.upper name)%string with
          | Some text => PStr text
          | None => default default_value (section !! name)
          end
          default_value w
    | Some _ => (Raise AttributeError, w)
    | None =>
        parse_value
          match environ w !! ("BENCHOPT_" +:+ Text.upper name)%string with
          | Some text => PStr text
          | None => default default_value (d !! name)
          end
          default_value w
    end.
Proof.
  intros Hdoc. unfold resolve_from. run_step.
  unfold store_document in Hdoc.
  destruct (fs w !! q) as [f |] eqn:Hq; cbn; rewrite ?Hq.
  - destruct (body f) as [| c | v]; try discriminate.
    destruct v; try discriminate. injection Hdoc as ->.
    cbn. unfold in_keys.
    destruct (d !! b) as [v |] eqn:Hb; cbn; [| reflexivity].
    destruct v; reflexivity.
  - injection Hdoc as <-. cbn. reflexivity.
Qed.

(** Resolution from a file that [ConfigParser] wrote. *)
Lemma resolve_from_ini name benchmark_name default_value q w mode c :
  fs w !! q = Some (mkFile mode (CIni c)) ->
  resolve_from name benchmark_name default_value q w = (Raise YAMLError, w).
Proof.
  intros Hq. unfold resolve_from. run_step. rewrite Hq. cbn. rewrite Hq. reflexivity.
Qed.

(** [get_setting] on a store in the current format that loads. *)
Lemma get_setting_current_format name config_file benchmark_name default_config
    w p w1 d registry_default :
  Alist.get name (registry PLOT_KINDS import_environ benchmark_name) = Some registry_default ->
  located config_file w = (Ok p, w1) ->
  suffix p <> ".ini"%string ->
  store_document w1 p = Some d ->
  namespace_ok benchmark_name d = true ->
  get_setting PLOT_KINDS import_environ name config_file benchmark_name default_config w
  = let default_value := effective_default registry_default default_config name in
    parse_value
      match environ w1 !! ("BENCHOPT_" +:+ Text.upper name)%string with
      | Some text => PStr text
      | None => stored_value benchmark_name d name default_value
      end
      default_value w1.
Proof.
  intros Hreg Hloc Hsuf Hdoc Hns.
  rewrite get_setting_unfold. unfold bind at 1. rewrite Hloc, Hreg. cbn zeta.
  destruct (decide (suffix p = ".ini"%string)) as [E | _]; [contradiction |].
  unfold bind at 1, ret.
  apply resolve_from_loaded; assumption.
Qed.

End Resolution.

Lemma Alist_set_nonempty {V} (k : string) (v : V) (l : list (string * V)) :
  Alist.set k v l <> [].
Proof.
  destruct l as [| [k' v'] r]; simpl; [discriminate |].
  destruct (decide (k' = k)); discriminate.
Qed.

(** After an assignment the parser has something to write. *)
Lemma ConfigParser_write_setitem c section option value c' :
  Configparser.setitem c section option value = Ok c' ->
  ConfigParser_write c' = CIni (read_back c').
Proof.
  unfold Configparser.setitem. destruct value; try discriminate.
  destruct (if Text.nonempty s then before_set s else Ok s) as [s' | e]; [| discriminate].
  cbn [res_bind].
  destruct (negb (Text.nonempty section) || bool_decide (section = default_section)).
  - intros [= <-]. unfold ConfigParser_write. cbn.
    pose proof (Alist_set_nonempty (optionxform option) s' (_defaults c)) as H.
    destruct (Alist.set (optionxform option) s' (_defaults c)); [contradiction |].
    reflexivity.
  - destruct (Alist.get section (_sections c)) as [opts |]; [| discriminate].
    intros [= <-]. unfold ConfigParser_write. cbn.
    pose proof (Alist_set_nonempty section
                  (Alist.set (optionxform option) s' opts) (_sections c)) as H.
    destruct (Alist.set section _ (_sections c)); [contradiction |].
    destruct (_defaults c); reflexivity.
Qed.

Section Writing.

Variable PLOT_KINDS : list string.
Variable import_environ : gmap string string.

(** [set_setting] with a name that the applicable registry does not
    hold: the run ends after the locator. *)
Lemma set_setting_unknown_run name value config_file benchmark_name w :
  Alist.get name (registry PLOT_KINDS import_environ benchmark_name) = None ->
  set_setting PLOT_KINDS import_environ name value config_file benchmark_name w
  = match located config_file w with
    | (Ok _, w1) =>
        (Raise (SystemExit 1),
         with_diag w1
           (diag w1 ++
            [Printed (unknown_setting_message name (default "benchopt"%string benchmark_name)
                        (registry PLOT_KINDS import_environ benchmark_name))]))
    | (Raise e, w1) => (Raise e, w1)
    end.
Proof.
  intros Hreg.
  unfold set_setting. unfold bind at 1.
  change (match config_file with
          | Some c => ret c
          | None => get_global_config_file
          end w) with (located config_file w).
  destruct (located config_file w) as [[p | e] w1]; [| reflexivity].
  destruct benchmark_name as [b |]; cbn [registry] in *; rewrite Hreg; reflexivity.
Qed.

(** C7, as amended: for a name that the applicable registry does not
    hold, [set_setting] prints the message that lists the option names of
    that registry and raises [SystemExit(1)], except when no file is given
    and [BENCHOPT_CONFIG] names a file that does not exist: the assertion
    of the locator fails first, and nothing is printed. No file is
    created or written in either case. *)
Theorem set_setting_unknown_name name value config_file benchmark_name w :
  Alist.get name (registry PLOT_KINDS import_environ benchmark_name) = None ->
  let message :=
    ("ERROR: " +:+ name +:+ " is not a setting for "
       +:+ default "benchopt" benchmark_name
       +:+ ". Possible settings are:" +:+ nl +:+ "  - "
       +:+ Text.join (nl +:+ "  - ")
             (Alist.keys (registry PLOT_KINDS import_environ benchmark_name)))%string in
  if override_missing config_file w
  then set_setting PLOT_KINDS import_environ name value config_file benchmark_name w
       = (Raise AssertionError, w)
  else exists p w1,
         located config_file w = (Ok p, w1)
         /\ set_setting PLOT_KINDS import_environ name value config_file benchmark_name w
            = (Raise (SystemExit 1), with_diag w1 (diag w1 ++ [Printed message]))
         /\ fs w1 = fs w.
Proof.
  intros Hreg message.
  pose proof (located_override config_file w) as Hloc.
  pose proof (located_frame config_file w) as (Hfs & _).
  rewrite (set_setting_unknown_run _ _ _ _ _ Hreg).
  destruct (override_missing config_file w).
  - rewrite Hloc. reflexivity.
  - destruct Hloc as (p & w1 & Hloc). rewrite Hloc in *. cbn [snd] in Hfs.
    exists p, w1. repeat split; [exact Hfs].
Qed.

(** Whatever the locator does, [set_setting] with an unknown name raises
    and leaves the files as they are. *)
Lemma set_setting_unknown_files_unchanged name value config_file benchmark_name w :
  Alist.get name (registry PLOT_KINDS import_environ benchmark_name) = None ->
  fs (snd (set_setting PLOT_KINDS import_environ name value config_file benchmark_name w))
    = fs w
  /\ exists e,
      fst (set_setting PLOT_KINDS import_environ name value config_file benchmark_name w)
        = Raise e.
Proof.
  intros Hreg.
  rewrite (set_setting_unknown_run _ _ _ _ _ Hreg).
  pose proof (located_frame config_file w) as (Hfs & _).
  destruct (located config_file w) as [[p | e] w1]; cbn in *; eauto.
Qed.

(** What a successful [set_setting] leaves in the file. *)
Lemma set_setting_ok_inv name value p benchmark_name w w' :
  set_setting PLOT_KINDS import_environ name value (Some p) benchmark_name w = (Ok tt, w') ->
  exists default_value mode c,
    Alist.get name (registry PLOT_KINDS import_environ benchmark_name) = Some default_value
    /\ fs w' !! p = Some (mkFile mode (CIni c)).
Proof.
  unfold set_setting. unfold bind at 1. cbn [ret].
  set (scope := match benchmark_name with
                | Some b => (b, DEFAULT_BENCHMARK_CONFIG PLOT_KINDS)
                | None => ("benchopt"%string, DEFAULT_GLOBAL_CONFIG import_environ)
                end).
  assert (Hscope : snd scope = registry PLOT_KINDS import_environ benchmark_name)
    by (destruct benchmark_name; reflexivity).
  destruct scope as [section default_config]. cbn [snd] in Hscope. subst default_config.
  destruct (Alist.get name (registry PLOT_KINDS import_environ benchmark_name))
    as [default_value |]; [| discriminate].
  unfold bind at 1.
  destruct (ConfigParser_read p w) as [[config | e] w0] eqn:Hread; [| discriminate].
  assert (w0 = w) as ->.
  { unfold ConfigParser_read in Hread.
    destruct (fs w !! p) as [f |]; [destruct (body f) |]; congruence. }
  run_step.
  destruct (reverse_parse default_value value) as [raw | e]; [| discriminate].
  destruct (Configparser.setitem _ section name raw) as [c' | e] eqn:Hset; [| discriminate].
  rewrite (ConfigParser_write_setitem _ _ _ _ _ Hset).
  unfold touch, write_file.
  destruct (fs w !! p) as [f |] eqn:Hp; cbn.
  - rewrite Hp. intros [= <-]. cbn. rewrite lookup_insert_eq. eauto.
  - rewrite Hp. cbn. rewrite lookup_insert_eq. intros [= <-]. cbn.
    rewrite lookup_insert_eq. eauto.
Qed.

(** C1: on a store file with the suffix [.yml], a [set_setting] that
    succeeds is followed by a [get_setting] of the same option that
    raises the error of the YAML loader instead of returning the value:
    [set_setting] writes the file with [ConfigParser.write], and
    [get_setting] reads it with [yaml.safe_load]. *)
Theorem set_setting_then_get_setting_raises name value p benchmark_name
    default_config w w' :
  suffix p = ".yml"%string ->
  set_setting PLOT_KINDS import_environ name value (Some p) benchmark_name w = (Ok tt, w') ->
  get_setting PLOT_KINDS import_environ name (Some p) benchmark_name default_config w'
    = (Raise YAMLError, w').
Proof.
  intros Hsuf Hset.
  destruct (set_setting_ok_inv _ _ _ _ _ _ Hset) as (dv & mode & c & Hreg & Hfile).
  rewrite get_setting_unfold. unfold bind at 1. cbn [located ret].
  rewrite Hreg, Hsuf. cbn zeta.
  destruct (decide (".yml"%string = ".ini"%string)) as [E | _]; [discriminate |].
  unfold bind at 1, ret.
  eapply resolve_from_ini, Hfile.
Qed.

End Writing.

Lemma set_setting_then_get_setting_raises_witness :
  let PLOT_KINDS := ["objective_curve"; "bar_chart"]%string in
  let stored :=
    mkFile GLOBAL_CONFIG_FILE_MODE
      (CIni (mkConfigParser [] [("benchopt", [("debug", "true")])]%string)) in
  let w' := with_fs fresh_world {[ ["benchopt.yml"]%string := stored ]} in
  suffix ["benchopt.yml"]%string = ".yml"%string
  /\ set_setting PLOT_KINDS ∅ "debug" (PBool true) (Some ["benchopt.yml"]%string) None
       fresh_world = (Ok tt, w')
  /\ get_setting PLOT_KINDS ∅ "debug" (Some ["benchopt.yml"]%string) None None w'
       = (Raise YAMLError, w').
Proof.
  intros PLOT_KINDS stored w'.
  assert (Hset : set_setting PLOT_KINDS ∅ "debug" (PBool true)
                   (Some ["benchopt.yml"]%string) None fresh_world = (Ok tt, w'))
    by (vm_compute; reflexivity).
  split; [reflexivity |]. split; [exact Hset |].
  exact (set_setting_then_get_setting_raises PLOT_KINDS ∅ "debug" (PBool true)
           ["benchopt.yml"]%string None None fresh_world w' eq_refl Hset).
Defined.

Lemma set_setting_unknown_name_witness :
  exists p w1,
    located None fresh_world = (Ok p, w1)
    /\ set_setting ["bar_chart"]%string ∅ "verbose" (PBool true) None None fresh_world
       = (Raise (SystemExit 1),
          with_diag w1
            (diag w1 ++
             [Printed ("ERROR: verbose is not a setting for benchopt. Possible settings are:"
                         +:+ nl +:+ "  - debug"
                         +:+ nl +:+ "  - raise_install_error"
                         +:+ nl +:+ "  - github_token"
                         +:+ nl +:+ "  - data_dir"
                         +:+ nl +:+ "  - conda_cmd"
                         +:+ nl +:+ "  - shell"
                         +:+ nl +:+ "  - cache")%string]))
    /\ fs w1 = fs fresh_world.
Proof.
  exact (set_setting_unknown_name ["bar_chart"]%string ∅ "verbose" (PBool true)
           None None fresh_world eq_refl).
Defined.

(** C7, as stated, fails when no file is given and [BENCHOPT_CONFIG] names
    a file that does not exist: the unknown name is not reported, the
    assertion of the locator is raised, and nothing is printed. *)
Lemma set_setting_unknown_name_counterexample :
  let w := mkWorld {["BENCHOPT_CONFIG"%string := "missing.yml"%string]}
             ["/"; "home"; "user"]%string 18 ∅ [] in
  Alist.get "verbose"%string (registry ["bar_chart"]%string ∅ None) = None
  /\ set_setting ["bar_chart"]%string ∅ "verbose" (PBool true) None None w
     = (Raise AssertionError, w)
  /\ diag w = [].
Proof. repeat split; vm_compute; reflexivity. Qed.

(** ** Migration of a legacy file: [convert_ini_to_yml] *)

(** Coercing a text never raises and touches no file. *)
Lemma parse_value_text (raw : string) (default_value : pyval) (w : World) :
  exists v w', parse_value (PStr raw) default_value w = (Ok v, w')
               /\ fs w' = fs w /\ environ w' = environ w /\ umask w' = umask w.
Proof.
  destruct default_value; try (eexists _, _; split; [reflexivity | auto]).
  unfold parse_value. run_step.
  destruct (Alist.get (Text.lower raw) BOOLEAN_STATES);
    eexists _, _; (split; [reflexivity | auto]).
Qed.

Lemma Alist_get_keys {V} (k : string) (l : list (string * V)) :
  k ∈ Alist.keys l -> is_Some (Alist.get k l).
Proof.
  induction l as [| [k' v] l IH]; simpl.
  - intros H. inversion H.
  - intros H. destruct (decide (k' = k)); [eauto |].
    apply elem_of_cons in H as [-> | H]; [contradiction | auto].
Qed.

Section Migration.

Variable PLOT_KINDS : list string.
Variable import_environ : gmap string string.

(** One section: the comprehension returns when every key is registered,
    and raises [KeyError] at the first key that is not. *)
Lemma convert_values_run c sec default (opts : list string) values w :
  (forall key, key ∈ opts -> exists v, Configparser.get c sec key = Ok v) ->
  let r := convert_values c sec default opts values w in
  fs (snd r) = fs w /\
  ((exists vs, fst r = Ok vs) /\ (forall key, key ∈ opts -> is_Some (Alist.get key default))
   \/ exists key, fst r = Raise (KeyError key) /\ key ∈ opts /\ Alist.get key default = None).
Proof.
  revert values w. induction opts as [| key opts IH]; intros values w Hget; cbn zeta.
  - split; [reflexivity |]. left. split; [eexists; reflexivity |].
    intros key H. inversion H.
  - destruct (Hget key) as [raw Hraw]; [left |].
    cbn [convert_values]. unfold bind, lift. rewrite Hraw.
    destruct (Alist.get key default) as [dv |] eqn:Hdv.
    + destruct (parse_value_text raw dv w) as (v & w1 & Hpv & Hfs & _).
      rewrite Hpv.
      destruct (IH (<[key := v]> values) w1) as [Hfs' Hres].
      { intros k Hk. apply Hget. right. exact Hk. }
      split; [congruence |].
      destruct Hres as [[Hok Hall] | (k & Hk & Hin & Hnone)].
      * left. split; [exact Hok |].
        intros k Hk. apply elem_of_cons in Hk as [-> | Hk]; [rewrite Hdv; eauto | auto].
      * right. exists k. split; [exact Hk |]. split; [right; exact Hin | exact Hnone].
    + split; [reflexivity |]. right. exists key. repeat split; [left | exact Hdv].
Qed.

(** The loop over the sections: it returns when every key of every
    section is registered, and raises [KeyError] otherwise. *)
Lemma convert_sections_run c (secs : list string) config w :
  values_readable c ->
  (forall sec, sec ∈ secs -> sec ∈ Configparser.sections c) ->
  let r := convert_sections PLOT_KINDS import_environ c secs config w in
  fs (snd r) = fs w /\
  ((exists doc, fst r = Ok doc)
     /\ (forall sec key, sec ∈ secs -> option_of c sec key ->
                         is_Some (Alist.get key (section_registry PLOT_KINDS import_environ sec)))
   \/ exists sec key, fst r = Raise (KeyError key) /\ sec ∈ secs /\ unregistered_key PLOT_KINDS import_environ c sec key).
Proof.
  intros Hread. revert config w.
  induction secs as [| sec secs IH]; intros config w Hsecs; cbn zeta.
  - split; [reflexivity |]. left. split; [eexists; reflexivity |].
    intros sec key H. inversion H.
  - assert (Hsec : sec ∈ Configparser.sections c) by (apply Hsecs; left).
    destruct (Alist_get_keys _ _ Hsec) as [own Hown].
    assert (Hopts : exists opts, Configparser.options c sec = Ok opts)
      by (unfold Configparser.options; rewrite Hown; eauto).
    destruct Hopts as [opts Hopts].
    cbn [convert_sections]. unfold bind, lift. rewrite Hopts.
    change (if decide (sec = "benchopt"%string)
            then DEFAULT_GLOBAL_CONFIG import_environ
            else DEFAULT_BENCHMARK_CONFIG PLOT_KINDS) with (section_registry PLOT_KINDS import_environ sec).
    destruct (convert_values_run c sec (section_registry PLOT_KINDS import_environ sec) opts ∅ w) as [Hfs Hres].
    { intros key Hkey. apply Hread. split; [exact Hsec | eauto]. }
    destruct (convert_values c sec (section_registry PLOT_KINDS import_environ sec) opts ∅ w) as [[vs | e] w1];
      cbn [fst snd] in *.
    + destruct Hres as [[_ Hall] | (k & Hk & _)]; [| discriminate].
      match goal with
      | |- context [convert_sections _ _ c secs ?cfg w1] =>
          destruct (IH cfg w1) as [Hfs' Hres']
      end.
      { intros s Hs. apply Hsecs. right. exact Hs. }
      split; [congruence |].
      destruct Hres' as [[Hok Hall'] | (s & k & Hk & Hin & Hun)].
      * left. split; [exact Hok |].
        intros s k Hs Hopt. apply elem_of_cons in Hs as [-> | Hs]; [| eauto].
        destruct Hopt as [_ (opts' & Hopts' & Hk)].
        rewrite Hopts in Hopts'. injection Hopts' as <-. auto.
      * right. exists s, k. split; [exact Hk |]. split; [right; exact Hin | exact Hun].
    + split; [exact Hfs |].
      destruct Hres as [[[vs Hvs] _] | (k & Hk & Hin & Hnone)]; [discriminate |].
      right. exists sec, k. split; [exact Hk |]. split; [left |].
      split; [split; [exact Hsec | eauto] | exact Hnone].
Qed.

(** C10, as amended: when a legacy file whose values [ConfigParser.get]
    can read holds, among the options of a section that [sections()]
    lists (its own options and those it inherits from [DEFAULT]), a key
    that the applicable registry does not hold, the migration raises a
    [KeyError] for such a key before the new file is created: the files
    are left as they were. *)
Theorem convert_ini_to_yml_unregistered_key p w f c sec key :
  fs w !! p = Some f ->
  body f = CIni c ->
  values_readable c ->
  unregistered_key PLOT_KINDS import_environ c sec key ->
  exists sec' key' w',
    convert_ini_to_yml PLOT_KINDS import_environ p w = (Raise (KeyError key'), w')
    /\ unregistered_key PLOT_KINDS import_environ c sec' key'
    /\ fs w' = fs w.
Proof.
  intros Hp Hbody Hread [Hopt Hnone].
  unfold convert_ini_to_yml. unfold bind at 1, emit.
  unfold bind at 1, ConfigParser_read. cbn [fs with_diag]. rewrite Hp, Hbody.
  unfold bind at 1.
  match goal with
  | |- context [convert_sections _ _ c ?secs ?cfg ?w0] =>
      destruct (convert_sections_run c secs cfg w0 Hread) as [Hfs Hres]; [auto |];
      destruct (convert_sections PLOT_KINDS import_environ c secs cfg w0)
        as [[doc | e] w1]
  end; cbn [fst snd] in *.
  - destruct Hres as [[_ Hall] | (s & k & Hk & _)]; [| discriminate].
    destruct (Hall sec key (proj1 Hopt) Hopt) as [v Hv]. congruence.
  - destruct Hres as [[[doc Hdoc] _] | (s & k & Hk & _ & Hun)]; [discriminate |].
    injection Hk as ->. exists s, k, w1. auto.
Qed.

End Migration.

(** A umask that leaves the owner's read and write bits gives a created
    file exactly the mode of the configuration file. *)
Lemma created_mode_owner (umask : Z) :
  Z.land umask (Z.lor S_IRUSR S_IWUSR) = 0 ->
  created_mode GLOBAL_CONFIG_FILE_MODE umask = GLOBAL_CONFIG_FILE_MODE.
Proof.
  intros H. unfold created_mode.
  change (Z.land GLOBAL_CONFIG_FILE_MODE 4095) with (Z.lor S_IRUSR S_IWUSR).
  change GLOBAL_CONFIG_FILE_MODE with (Z.lor S_IFREG (Z.lor S_IRUSR S_IWUSR)).
  f_equal. apply Z.bits_inj'. intros n Hn.
  rewrite Z.ldiff_spec.
  assert (Hbit : Z.testbit (Z.land umask (Z.lor S_IRUSR S_IWUSR)) n = false)
    by (rewrite H; apply Z.bits_0).
  rewrite Z.land_spec in Hbit.
  destruct (Z.testbit (Z.lor S_IRUSR S_IWUSR) n), (Z.testbit umask n);
    simpl in *; congruence.
Qed.

Lemma legacy_with_opt_readable PLOT_KINDS import_environ :
  values_readable legacy_with_opt /\
  unregistered_key PLOT_KINDS import_environ legacy_with_opt "bench1" "opt".
Proof.
  split.
  - intros sec key [Hsec (opts & Hopts & Hkey)].
    cbn in Hsec. repeat (apply elem_of_cons in Hsec as [-> | Hsec]);
      try (inversion Hsec; fail);
      vm_compute in Hopts; injection Hopts as <-;
      repeat (apply elem_of_cons in Hkey as [-> | Hkey]);
      try (inversion Hkey; fail); eexists; vm_compute; reflexivity.
  - split; [| reflexivity].
    split; [cbn; left |]. eexists. split; [vm_compute; reflexivity | left].
Qed.

Lemma convert_ini_to_yml_unregistered_key_witness :
  exists sec key w',
    convert_ini_to_yml documented_plot_kinds ∅ ["benchopt.ini"]%string
      (legacy_world legacy_with_opt) = (Raise (KeyError key), w')
    /\ unregistered_key documented_plot_kinds ∅ legacy_with_opt sec key
    /\ fs w' = fs (legacy_world legacy_with_opt).
Proof.
  exact (convert_ini_to_yml_unregistered_key documented_plot_kinds ∅
           ["benchopt.ini"]%string (legacy_world legacy_with_opt) _ legacy_with_opt
           "bench1" "opt" eq_refl eq_refl
           (proj1 (legacy_with_opt_readable documented_plot_kinds ∅))
           (proj2 (legacy_with_opt_readable documented_plot_kinds ∅))).
Defined.

(** C10, as stated, fails in two ways. A file whose only section is
    [DEFAULT] is migrated whatever its keys, since [sections()] does not
    list [DEFAULT]: the new file is written and holds the empty mapping.
    And a malformed [%] reference in the value of an unregistered key
    raises the interpolation error, since the value is read before the
    key is looked up. *)
Lemma migration_default_section_counterexample :
  let legacy := ["benchopt.ini"]%string in
  let w := legacy_world legacy_default_only in
  Alist.get "opt"%string (section_registry documented_plot_kinds ∅ default_section) = None
  /\ fst (convert_ini_to_yml documented_plot_kinds ∅ legacy w) = Ok tt
  /\ body <$> fs (snd (convert_ini_to_yml documented_plot_kinds ∅ legacy w))
               !! with_suffix legacy ".yml"
     = Some (CYaml (PDict ∅))
  /\ fst (convert_ini_to_yml documented_plot_kinds ∅ legacy
            (legacy_world legacy_with_percent))
     = Raise InterpolationError.
Proof. repeat split; vm_compute; reflexivity. Qed.


Section MigrationExample.

Variable PLOT_KINDS : list string.
Variable import_environ : gmap string string.




End MigrationExample.


(** ** Precedence: environment, store, default *)

Section Precedence.

Variable PLOT_KINDS : list string.
Variable import_environ : gmap string string.

Lemma convert_values_environ c sec default (opts : list string) values w :
  environ (snd (convert_values c sec default opts values w)) = environ w.
Proof.
  revert values w. induction opts as [| key opts IH]; intros values w; [reflexivity |].
  cbn [convert_values]. unfold bind, lift.
  destruct (Configparser.get c sec key) as [raw | e]; [| reflexivity].
  destruct (Alist.get key default) as [dv |]; [| reflexivity].
  destruct (parse_value_text raw dv w) as (v & w1 & Hpv & _ & Henv & _).
  rewrite Hpv, IH. exact Henv.
Qed.

Lemma convert_sections_environ c (secs : list string) config w :
  environ (snd (convert_sections PLOT_KINDS import_environ c secs config w)) = environ w.
Proof.
  revert config w. induction secs as [| sec secs IH]; intros config w; [reflexivity |].
  cbn [convert_sections]. unfold bind, lift.
  destruct (Configparser.options c sec) as [opts | e]; [| reflexivity].
  match goal with
  | |- context [convert_values c sec ?dflt opts ∅ w] =>
      pose proof (convert_values_environ c sec dflt opts ∅ w) as Henv;
      destruct (convert_values c sec dflt opts ∅ w) as [[vs | e] w1]
  end; cbn [snd] in *; [| exact Henv].
  rewrite IH. exact Henv.
Qed.

(** The migration does not touch the environment. *)
Lemma convert_ini_to_yml_environ p w :
  environ (snd (convert_ini_to_yml PLOT_KINDS import_environ p w)) = environ w.
Proof.
  unfold convert_ini_to_yml. unfold bind at 1, emit. unfold bind at 1.
  set (w0 := with_diag w _).
  assert (Hread : exists r, ConfigParser_read p w0 = (r, w0)).
  { unfold ConfigParser_read. destruct (fs w0 !! p) as [f |]; [destruct (body f) |]; eauto. }
  destruct Hread as [[c | e] ->]; [| reflexivity].
  unfold bind at 1.
  match goal with
  | |- context [convert_sections _ _ c ?secs ?cfg w0] =>
      pose proof (convert_sections_environ c secs cfg w0) as Henv;
      destruct (convert_sections PLOT_KINDS import_environ c secs cfg w0) as [[doc | e] w1]
  end; cbn [snd] in *; [| exact Henv].
  unfold bind, touch, write_file.
  destruct (fs w1 !! with_suffix p ".yml"); cbn; exact Henv.
Qed.

(** [get_setting] on a store that loads: the last steps run on the file in
    the current format, in the state that the loading leaves. *)
Lemma get_setting_store name config_file benchmark_name default_config
    w p w1 w2 d registry_default :
  Alist.get name (registry PLOT_KINDS import_environ benchmark_name) = Some registry_default ->
  located config_file w = (Ok p, w1) ->
  store_loads PLOT_KINDS import_environ w1 p w2 d ->
  exists q,
    store_document w2 q = Some d
    /\ environ w2 = environ w
    /\ get_setting PLOT_KINDS import_environ name config_file benchmark_name default_config w
       = resolve_from name benchmark_name
           (effective_default registry_default default_config name) q w2.
Proof.
  intros Hreg Hloc Hloads.
  pose proof (located_frame config_file w) as (_ & Henv & _).
  rewrite Hloc in Henv. cbn [snd] in Henv.
  rewrite get_setting_unfold. unfold bind at 1. rewrite Hloc, Hreg. cbn zeta.
  destruct Hloads as [d Hsuf Hdoc | w2 d Hsuf Hconv Hdoc].
  - exists p. split; [exact Hdoc |]. split; [exact Henv |].
    destruct (decide (suffix p = ".ini"%string)) as [E | _]; [contradiction |].
    reflexivity.
  - pose proof (convert_ini_to_yml_environ p w1) as Henv2.
    rewrite Hconv in Henv2. cbn [snd] in Henv2.
    exists (with_suffix p ".yml"). split; [exact Hdoc |]. split; [congruence |].
    destruct (decide (suffix p = ".ini"%string)) as [_ | E]; [| contradiction].
    unfold bind at 1. unfold bind at 1. rewrite Hconv. reflexivity.
Qed.

(** [get_setting] on a store that loads. *)
Lemma get_setting_loaded name config_file benchmark_name default_config
    w p w1 w2 d registry_default :
  Alist.get name (registry PLOT_KINDS import_environ benchmark_name) = Some registry_default ->
  located config_file w = (Ok p, w1) ->
  store_loads PLOT_KINDS import_environ w1 p w2 d ->
  namespace_ok benchmark_name d = true ->
  get_setting PLOT_KINDS import_environ name config_file benchmark_name default_config w
  = let default_value := effective_default registry_default default_config name in
    parse_value
      match environ w !! ("BENCHOPT_" +:+ Text.upper name)%string with
      | Some text => PStr text
      | None => stored_value benchmark_name d name default_value
      end
      default_value w2.
Proof.
  intros Hreg Hloc Hloads Hns.
  pose proof (located_frame config_file w) as (_ & Henv & _).
  rewrite Hloc in Henv. cbn [snd] in Henv.
  rewrite get_setting_unfold. unfold bind at 1. rewrite Hloc, Hreg. cbn zeta.
  destruct Hloads as [d Hsuf Hdoc | w2 d Hsuf Hconv Hdoc].
  - destruct (decide (suffix p = ".ini"%string)) as [E | _]; [contradiction |].
    unfold bind at 1, ret. rewrite <- Henv.
    apply resolve_from_loaded; assumption.
  - pose proof (convert_ini_to_yml_environ p w1) as Henv2.
    rewrite Hconv in Henv2. cbn [snd] in Henv2.
    destruct (decide (suffix p = ".ini"%string)) as [_ | E]; [| contradiction].
    unfold bind at 1. unfold bind at 1. rewrite Hconv. unfold ret.
    rewrite <- Henv, <- Henv2.
    apply resolve_from_loaded; assumption.
Qed.


(** C6, as amended: for a benchmark-scoped query without environment
    override, on a store that loads as a mapping, [get_setting] reads the
    entry of the option in the sub-namespace of the benchmark when the
    document has an entry for the benchmark that is a mapping, and the
    top-level entry under the same name when it has no entry for the
    benchmark; the result is the coercion of the entry read, and the
    effective default when there is no such entry. When the entry for the
    benchmark is not a mapping, [AttributeError] is raised. *)
Theorem get_setting_benchmark_scope name config_file b default_config
    w p w1 w2 d registry_default :
  Alist.get name (registry PLOT_KINDS import_environ (Some b)) = Some registry_default ->
  environ w !! ("BENCHOPT_" +:+ Text.upper name)%string = None ->
  located config_file w = (Ok p, w1) ->
  store_loads PLOT_KINDS import_environ w1 p w2 d ->
  get_setting PLOT_KINDS import_environ name config_file (Some b) default_config w
  = let default_value := effective_default registry_default default_config name in
    match d !! b with
    | Some (PDict section) =>
        parse_value (default default_value (section !! name)) default_value w2
    | Some _ => (Raise AttributeError, w2)
    | None => parse_value (default default_value (d !! name)) default_value w2
    end.
Proof.
  intros Hreg Henv Hloc Hloads.
  destruct (get_setting_store _ _ _ default_config _ _ _ _ _ _ Hreg Hloc Hloads)
    as (q & Hdoc & Henv2 & ->).
  cbn zeta. rewrite (resolve_from_scoped _ _ _ _ _ _ Hdoc), Henv2, Henv.
  destruct (d !! b) as [[] |]; reflexivity.
Qed.

End Precedence.

(** ** Examples of resolution *)



Lemma get_setting_benchmark_scope_witness :
  let w := store_world ∅ {["plots"%string := PList [PStr "bar_chart"]]} in
  get_setting documented_plot_kinds ∅ "plots" (Some local_config_file)
    (Some "bench1"%string) None w
  = (Ok (PList [PStr "bar_chart"]), w).
Proof.
  intros w.
  exact (get_setting_benchmark_scope documented_plot_kinds ∅ "plots"
           (Some local_config_file) "bench1" None w local_config_file w w
           {["plots"%string := PList [PStr "bar_chart"]]}
           (PList (map PStr documented_plot_kinds))
           eq_refl eq_refl eq_refl
           (loads_current documented_plot_kinds ∅ w local_config_file _
              ltac:(discriminate) eq_refl)).
Defined.

(** C6, as stated, fails: the document has no sub-namespace [bench1], and
    the query for [plots] scoped to [bench1] returns the top-level entry
    [plots], not the default. *)
Lemma top_level_entry_counterexample :
  let d : gmap string pyval := {["plots"%string := PList [PStr "bar_chart"]]} in
  let w := store_world ∅ d in
  d !! "bench1"%string = None
  /\ get_setting documented_plot_kinds ∅ "plots" (Some local_config_file)
       (Some "bench1"%string) None w
     = (Ok (PList [PStr "bar_chart"]), w)
  /\ PList [PStr "bar_chart"]
     <> effective_default (PList (map PStr documented_plot_kinds)) None "plots".
Proof.
  intros d w. split; [reflexivity |]. split; [vm_compute; reflexivity | discriminate].
Qed.

(** * Further properties of the module *)

(** ** The locator, branch by branch *)

(** X1: when [BENCHOPT_CONFIG] names a file that exists, the locator
    returns that path whatever other configuration files exist; the only
    effect is a warning when the mode of the file is not the owner-only
    mode. *)
Theorem get_global_config_file_override (w : World) (s : string) (f : file) :
  environ w !! "BENCHOPT_CONFIG"%string = Some s ->
  fs w !! Path_of s = Some f ->
  get_global_config_file w = (Ok (Path_of s), mode_checked w (Path_of s) f).
Proof. intros Henv Hf. locator_run. Qed.

Lemma get_global_config_file_override_witness :
  let f := mkFile 33188 (CYaml (PDict ∅)) in
  let w := mkWorld {["BENCHOPT_CONFIG"%string := "/etc/benchopt.yml"%string]}
             ["/"; "home"; "user"]%string 18
             {[ ["/"; "etc"; "benchopt.yml"]%string := f ]} [] in
  get_global_config_file w
  = (Ok ["/"; "etc"; "benchopt.yml"]%string,
     with_diag w [Warn_file_mode ["/"; "etc"; "benchopt.yml"]%string 33188]).
Proof.
  intros f w.
  exact (get_global_config_file_override w "/etc/benchopt.yml" f eq_refl eq_refl).
Defined.

(** X2: when [BENCHOPT_CONFIG] names a file that does not exist, the
    locator fails its assertion; it does not fall back to the
    project-local or the user-home file, and the process state is left as
    it was. *)
Theorem get_global_config_file_override_missing (w : World) (s : string) :
  environ w !! "BENCHOPT_CONFIG"%string = Some s ->
  fs w !! Path_of s = None ->
  get_global_config_file w = (Raise AssertionError, w).
Proof. intros Henv Hf. locator_run. Qed.

Lemma get_global_config_file_override_missing_witness :
  let w := mkWorld {["BENCHOPT_CONFIG"%string := "/etc/benchopt.yml"%string]}
             ["/"; "home"; "user"]%string 18
             {[ local_config_file := mkFile GLOBAL_CONFIG_FILE_MODE (CYaml (PDict ∅)) ]} [] in
  get_global_config_file w = (Raise AssertionError, w).
Proof.
  intros w.
  exact (get_global_config_file_override_missing w "/etc/benchopt.yml" eq_refl eq_refl).
Defined.

(** X3: without override, a project-local file in the current format is
    returned, whatever the legacy file and the home directory hold. *)
Theorem get_global_config_file_local (w : World) (f : file) :
  environ w !! "BENCHOPT_CONFIG"%string = None ->
  fs w !! local_config_file = Some f ->
  get_global_config_file w = (Ok local_config_file, mode_checked w local_config_file f).
Proof. intros Henv Hf. unfold local_config_file in *. locator_run. Qed.

Lemma get_global_config_file_local_witness :
  let w := store_world ∅ ∅ in
  get_global_config_file w = (Ok local_config_file, w).
Proof.
  intros w.
  exact (get_global_config_file_local w _ eq_refl eq_refl).
Defined.

(** X4: without override and without project-local file in the current
    format, a project-local legacy file is returned, whatever the home
    directory holds. *)
Theorem get_global_config_file_local_legacy (w : World) (f : file) :
  environ w !! "BENCHOPT_CONFIG"%string = None ->
  fs w !! local_config_file = None ->
  fs w !! with_suffix local_config_file ".ini" = Some f ->
  get_global_config_file w
  = (Ok (with_suffix local_config_file ".ini"),
     mode_checked w (with_suffix local_config_file ".ini") f).
Proof. intros Henv Hl Hf. unfold local_config_file in *. locator_run. Qed.

Lemma get_global_config_file_local_legacy_witness :
  let w := legacy_world legacy_with_plots in
  get_global_config_file w = (Ok ["benchopt.ini"]%string, w).
Proof.
  intros w.
  exact (get_global_config_file_local_legacy w _ eq_refl eq_refl eq_refl).
Defined.

(** X5: without override and without project-local file in either form,
    a user-home file in the current format is returned. *)
Theorem get_global_config_file_home (w : World) (f : file) :
  environ w !! "BENCHOPT_CONFIG"%string = None ->
  fs w !! local_config_file = None ->
  fs w !! with_suffix local_config_file ".ini" = None ->
  fs w !! home_config_file w = Some f ->
  get_global_config_file w
  = (Ok (home_config_file w), mode_checked w (home_config_file w) f).
Proof.
  intros Henv Hl Hli Hh. unfold local_config_file, home_config_file in *. locator_run.
Qed.

Lemma get_global_config_file_home_witness :
  let f := mkFile GLOBAL_CONFIG_FILE_MODE (CYaml (PDict ∅)) in
  let w := with_fs fresh_world {[ home_config_file fresh_world := f ]} in
  get_global_config_file w = (Ok ["/"; "home"; "user"; ".config"; "benchopt.yml"]%string, w).
Proof.
  intros f w.
  exact (get_global_config_file_home w f eq_refl eq_refl eq_refl eq_refl).
Defined.

(** X6: without override, without project-local file in either form and
    without user-home file in the current format, a user-home legacy file
    is returned. *)
Theorem get_global_config_file_home_legacy (w : World) (f : file) :
  environ w !! "BENCHOPT_CONFIG"%string = None ->
  fs w !! local_config_file = None ->
  fs w !! with_suffix local_config_file ".ini" = None ->
  fs w !! home_config_file w = None ->
  fs w !! with_suffix (home_config_file w) ".ini" = Some f ->
  get_global_config_file w
  = (Ok (with_suffix (home_config_file w) ".ini"),
     mode_checked w (with_suffix (home_config_file w) ".ini") f).
Proof.
  intros Henv Hl Hli Hh Hhi. unfold local_config_file, home_config_file in *. locator_run.
Qed.

Lemma get_global_config_file_home_legacy_witness :
  let f := mkFile 33204 (CIni legacy_with_plots) in
  let legacy := ["/"; "home"; "user"; ".config"; "benchopt.ini"]%string in
  let w := with_fs fresh_world {[ legacy := f ]} in
  get_global_config_file w = (Ok legacy, with_diag w [Warn_file_mode legacy 33204]).
Proof.
  intros f legacy w.
  exact (get_global_config_file_home_legacy w f eq_refl eq_refl eq_refl eq_refl eq_refl).
Defined.

(** ** The coercion, on every input *)

(** [parse_value] reads and writes no file. *)
Lemma parse_value_frame (value default_value : pyval) (w : World) :
  fs (snd (parse_value value default_value w)) = fs w /\
  environ (snd (parse_value value default_value w)) = environ w /\
  umask (snd (parse_value value default_value w)) = umask w.
Proof.
  destruct default_value; try (cbn; tauto); destruct value; try (cbn; tauto).
  unfold parse_value. run_step.
  destruct (Alist.get (Text.lower s) BOOLEAN_STATES); cbn; tauto.
Qed.

(** A value that has the shape of the default passes unchanged. *)
Lemma parse_value_same (v : pyval) (w : World) : parse_value v v w = (Ok v, w).
Proof. destruct v; reflexivity. Qed.

(** X7: [parse_value] returns for a text and for a value that has the
    shape of the default already, and the result then has the shape of a
    boolean or list default; on any other value it fails its assertion
    and emits nothing. For a default that is neither a boolean nor a list
    every value is returned as it is. *)
Theorem parse_value_shape (value default_value : pyval) (w : World) :
  if accepted default_value value
  then exists r w', parse_value value default_value w = (Ok r, w')
                    /\ shaped_like default_value r = true
                    /\ (isinstance_bool default_value || isinstance_list default_value = false
                        -> r = value /\ w' = w)
  else parse_value value default_value w = (Raise AssertionError, w).
Proof.
  assert (Hdone : forall r w', parse_value value default_value w = (Ok r, w') ->
            shaped_like default_value r = true ->
            (isinstance_bool default_value || isinstance_list default_value = false
             -> r = value /\ w' = w) ->
            exists r w', parse_value value default_value w = (Ok r, w')
                         /\ shaped_like default_value r = true
                         /\ (isinstance_bool default_value || isinstance_list default_value = false
                             -> r = value /\ w' = w)) by eauto 6.
  destruct default_value, value;
    cbn [accepted isinstance_str isinstance_bool isinstance_list orb];
    try reflexivity;
    try (eapply Hdone; [reflexivity | reflexivity | (discriminate || auto)]).
  destruct (Alist.get (Text.lower s) BOOLEAN_STATES) as [b' |] eqn:E;
    (eapply Hdone;
     [unfold parse_value; run_step; rewrite E; reflexivity | reflexivity | discriminate]).
Qed.

Lemma words_items (s : string) :
  Forall (fun x => Text.nonempty x = true /\ blank_free x = true) (snd (Text.words s)).
Proof.
  induction s as [| c s IH]; [constructor |].
  cbn [Text.words]. destruct (Text.words s) as [inside ws]. cbn [snd] in *.
  destruct (Text.isspace c) eqn:Hc; [exact IH |]. cbn [snd].
  assert (Hone : Text.nonempty (String c EmptyString) = true
                 /\ blank_free (String c EmptyString) = true).
  { split; [reflexivity |]. unfold blank_free. cbn. rewrite Hc. reflexivity. }
  destruct inside; [| constructor; assumption].
  destruct ws as [| x ws]; cbn [Text.push]; [constructor; auto |].
  inversion IH as [| ? ? [_ Hx] Hws]; subst.
  constructor; [| exact Hws]. split; [reflexivity |].
  unfold blank_free in *. cbn. rewrite Hc. exact Hx.
Qed.

Lemma split_on_pieces (sep : ascii) (s : string) :
  blank_free s = true ->
  Forall (fun x => blank_free x = true /\ Text.contains sep x = false)
         (Text.split_on sep s).
Proof.
  induction s as [| c s IH]; intros Hs; [repeat constructor |].
  apply TextFacts.blank_free_cons in Hs as [Hc Hs]. specialize (IH Hs).
  cbn [Text.split_on]. destruct (bool_decide (c = sep)) eqn:Hsep.
  - constructor; [split; reflexivity | exact IH].
  - assert (Hone : forall x, blank_free x = true /\ Text.contains sep x = false ->
                             blank_free (String c x) = true
                             /\ Text.contains sep (String c x) = false).
    { intros x [Hx1 Hx2]. split.
      - unfold blank_free in *. cbn. rewrite Hc. exact Hx1.
      - cbn. rewrite Hsep. exact Hx2. }
    destruct (Text.split_on sep s) as [| x r]; cbn [Text.push].
    + constructor; [apply Hone; split; reflexivity | constructor].
    + inversion IH; subst. constructor; [apply Hone; assumption | assumption].
Qed.

(** Every item of a parsed list can be written back and read again. *)
Lemma parse_list_clean (s : string) :
  Forall (fun x => clean_item x = true) (parse_list s).
Proof.
  unfold parse_list, Text.split.
  induction (words_items s) as [| w ws [_ Hw] _ IH]; [constructor |].
  cbn [List.flat_map]. apply Forall_app. split; [| exact IH].
  induction (split_on_pieces "," w Hw) as [| x xs [Hx1 Hx2] _ IHx]; [constructor |].
  cbn [List.filter]. destruct (Text.nonempty x) eqn:Hx; [| exact IHx].
  cbn [map]. constructor; [| exact IHx].
  rewrite TextFacts.strip_blank_free by exact Hx1.
  unfold clean_item. rewrite Hx, Hx1, Hx2. reflexivity.
Qed.

(** X8: whatever the text, the list that [parse_value] reads from it holds
    only items that are not empty and hold neither comma nor blank, and
    that list is stable: serialised with [reverse_parse] and parsed
    again, it comes back the same. *)
Theorem parse_value_list_stable (text : string) (d : list pyval) (w : World) :
  exists items,
    parse_value (PStr text) (PList d) w = (Ok (PList (map PStr items)), w)
    /\ Forall (fun x => clean_item x = true) items
    /\ serialize_then_parse (PList d) (PList (map PStr items)) w
       = (Ok (PList (map PStr items)), w).
Proof.
  exists (parse_list text). split; [reflexivity |].
  split; [apply parse_list_clean |].
  unfold serialize_then_parse, bind, lift, reverse_parse.
  cbn [isinstance_bool isinstance_Iterable isinstance_str isinstance_list orb andb negb].
  rewrite str_items_strs. cbn [res_bind].
  unfold parse_value, bind, ret.
  rewrite parse_list_nl, parse_list_join by apply parse_list_clean. reflexivity.
Qed.

(** ** [get_setting], beyond the precedence *)

Lemma bind_ok_inv {A B} (m : M A) (k : A -> M B) (w w' : World) (b : B) :
  bind m k w = (Ok b, w') ->
  exists a w1, m w = (Ok a, w1) /\ k a w1 = (Ok b, w').
Proof.
  unfold bind. destruct (m w) as [[a | e] w1]; [eauto | discriminate].
Qed.

Lemma parse_value_ok_shape (value default_value r : pyval) (w w' : World) :
  parse_value value default_value w = (Ok r, w') ->
  shaped_like default_value r = true.
Proof.
  destruct default_value; try reflexivity; destruct value;
    try (cbn; first [discriminate | intros H; inversion H; reflexivity]).
  unfold parse_value. run_step.
  destruct (Alist.get (Text.lower s) BOOLEAN_STATES); cbn;
    intros H; inversion H; reflexivity.
Qed.

Lemma reads_only_bind {A B} (m : M A) (k : A -> M B) :
  reads_only m -> (forall a, reads_only (k a)) -> reads_only (bind m k).
Proof.
  intros Hm Hk w. unfold bind. specialize (Hm w).
  destruct (m w) as [[a | e] w1]; cbn [snd] in *; [| exact Hm].
  destruct (Hk a w1) as (H1 & H2 & H3). destruct Hm as (H4 & H5 & H6).
  repeat split; congruence.
Qed.

Lemma reads_only_pure {A} (r : res A) : reads_only (lift r).
Proof. intros w. repeat split. Qed.

Lemma reads_only_parse_value value default_value :
  reads_only (parse_value value default_value).
Proof. intros w. apply parse_value_frame. Qed.

(** The last steps of [get_setting] read the file and the environment and
    change neither. *)
Lemma resolve_from_frame name benchmark_name default_value q :
  reads_only (resolve_from name benchmark_name default_value q).
Proof.
  unfold resolve_from.
  apply reads_only_bind; [intros w; repeat split | intros e].
  apply reads_only_bind.
  { destruct e; [| apply (reads_only_pure (Ok (PDict ∅)))].
    apply reads_only_bind; [| intros f; apply reads_only_pure].
    intros w. unfold read_file. destruct (fs w !! q); repeat split. }
  intros config. apply reads_only_bind.
  { destruct config; try apply (reads_only_pure (Raise AttributeError)).
    destruct (in_keys benchmark_name d).
    - destruct (d !! default EmptyString benchmark_name) as [v |];
        [| apply (reads_only_pure (Raise AttributeError))].
      destruct v; try apply (reads_only_pure (Raise AttributeError)).
      apply (reads_only_pure (Ok _)).
    - apply (reads_only_pure (Ok _)). }
  intros value. cbn zeta.
  apply reads_only_bind; [intros w; repeat split | intros env].
  apply reads_only_parse_value.
Qed.

Lemma resolve_from_ok_shape name benchmark_name default_value q (w w' : World) r :
  resolve_from name benchmark_name default_value q w = (Ok r, w') ->
  shaped_like default_value r = true.
Proof.
  unfold resolve_from. intros H.
  apply bind_ok_inv in H as (e & w1 & _ & H).
  apply bind_ok_inv in H as (config & w2 & _ & H).
  apply bind_ok_inv in H as (value & w3 & _ & H).
  cbn zeta in H. apply bind_ok_inv in H as (env & w4 & _ & H).
  eapply parse_value_ok_shape, H.
Qed.

Section Reading.

Variable PLOT_KINDS : list string.
Variable import_environ : gmap string string.

(** A value that [get_setting] returns has the shape of the effective
    default. *)
Lemma get_setting_ok_shape name config_file benchmark_name default_config w w' r :
  get_setting PLOT_KINDS import_environ name config_file benchmark_name default_config w
    = (Ok r, w') ->
  exists registry_default,
    Alist.get name (registry PLOT_KINDS import_environ benchmark_name) = Some registry_default
    /\ shaped_like (effective_default registry_default default_config name) r = true.
Proof.
  rewrite get_setting_unfold. intros H.
  apply bind_ok_inv in H as (p & w1 & _ & H).
  destruct (Alist.get name (registry PLOT_KINDS import_environ benchmark_name))
    as [rd |]; [| discriminate].
  exists rd. split; [reflexivity |].
  cbn zeta in H. apply bind_ok_inv in H as (q & w2 & _ & H).
  eapply resolve_from_ok_shape, H.
Qed.

(** X9: for a name that the applicable registry does not hold,
    [get_setting] fails its assertion as soon as the file is given or
    located: no file is read, migrated or written, even when the store is
    a legacy file. *)
Theorem get_setting_unknown_name name config_file benchmark_name default_config w p w1 :
  Alist.get name (registry PLOT_KINDS import_environ benchmark_name) = None ->
  located config_file w = (Ok p, w1) ->
  get_setting PLOT_KINDS import_environ name config_file benchmark_name default_config w
    = (Raise AssertionError, w1)
  /\ fs w1 = fs w.
Proof.
  intros Hreg Hloc.
  pose proof (located_frame config_file w) as (Hfs & _).
  rewrite Hloc in Hfs. cbn [snd] in Hfs. split; [| exact Hfs].
  rewrite get_setting_unfold. unfold bind at 1. rewrite Hloc, Hreg. reflexivity.
Qed.

(** X10: on a store file that does not exist, and without environment
    variable for the option, [get_setting] returns the effective default
    of every registered option (the default of the caller when there is
    one, that of the registry otherwise) and creates nothing. *)
Theorem get_setting_absent_store name config_file benchmark_name default_config
    w p w1 registry_default :
  Alist.get name (registry PLOT_KINDS import_environ benchmark_name) = Some registry_default ->
  located config_file w = (Ok p, w1) ->
  suffix p <> ".ini"%string ->
  fs w1 !! p = None ->
  environ w !! ("BENCHOPT_" +:+ Text.upper name)%string = None ->
  get_setting PLOT_KINDS import_environ name config_file benchmark_name default_config w
    = (Ok (effective_default registry_default default_config name), w1).
Proof.
  intros Hreg Hloc Hsuf Hp Henv.
  pose proof (located_frame config_file w) as (_ & Henv1 & _).
  rewrite Hloc in Henv1. cbn [snd] in Henv1.
  rewrite (get_setting_current_format PLOT_KINDS import_environ name config_file
             benchmark_name default_config w p w1 ∅ registry_default Hreg Hloc Hsuf).
  - cbn zeta. rewrite Henv1, Henv.
    replace (stored_value benchmark_name ∅ name
               (effective_default registry_default default_config name))
      with (effective_default registry_default default_config name)
      by (destruct benchmark_name; reflexivity).
    apply parse_value_same.
  - unfold store_document. rewrite Hp. reflexivity.
  - destruct benchmark_name; reflexivity.
Qed.

(** X11: on a store file that exists and holds no text (as [touch]
    leaves it), [get_setting] raises [AttributeError] for every
    registered option, whatever the environment: the loader returns
    [None], which has no keys. *)
Theorem get_setting_empty_store name config_file benchmark_name default_config
    w p w1 registry_default f :
  Alist.get name (registry PLOT_KINDS import_environ benchmark_name) = Some registry_default ->
  located config_file w = (Ok p, w1) ->
  suffix p <> ".ini"%string ->
  fs w1 !! p = Some f ->
  body f = CEmpty ->
  get_setting PLOT_KINDS import_environ name config_file benchmark_name default_config w
    = (Raise AttributeError, w1).
Proof.
  intros Hreg Hloc Hsuf Hp Hbody.
  rewrite get_setting_unfold. unfold bind at 1. rewrite Hloc, Hreg. cbn zeta.
  destruct (decide (suffix p = ".ini"%string)) as [E | _]; [contradiction |].
  unfold bind at 1, ret. unfold resolve_from. run_step.
  rewrite Hp. cbn. rewrite Hp, Hbody. reflexivity.
Qed.

(** X12: on a path that does not have the legacy suffix, [get_setting]
    only reads: whatever it returns or raises, the files and the
    environment are as before. *)
Theorem get_setting_reads_only name config_file benchmark_name default_config w p w1 :
  located config_file w = (Ok p, w1) ->
  suffix p <> ".ini"%string ->
  let w' := snd (get_setting PLOT_KINDS import_environ name config_file
                   benchmark_name default_config w) in
  fs w' = fs w /\ environ w' = environ w.
Proof.
  intros Hloc Hsuf.
  pose proof (located_frame config_file w) as (Hfs & Henv & _).
  rewrite Hloc in Hfs, Henv. cbn [snd] in Hfs, Henv.
  cbn zeta.
  assert (E : get_setting PLOT_KINDS import_environ name config_file benchmark_name
                default_config w
              = match Alist.get name (registry PLOT_KINDS import_environ benchmark_name) with
                | Some rd =>
                    resolve_from name benchmark_name
                      (effective_default rd default_config name) p w1
                | None => (Raise AssertionError, w1)
                end).
  { rewrite get_setting_unfold. unfold bind at 1. rewrite Hloc.
    destruct (Alist.get name (registry PLOT_KINDS import_environ benchmark_name));
      [| reflexivity].
    cbn zeta. destruct (decide (suffix p = ".ini"%string)) as [E | _]; [contradiction |].
    reflexivity. }
  rewrite E.
  destruct (Alist.get name (registry PLOT_KINDS import_environ benchmark_name))
    as [rd |]; [| cbn; auto].
  destruct (resolve_from_frame name benchmark_name
              (effective_default rd default_config name) p w1) as (H1 & H2 & _).
  split; congruence.
Qed.

(** X13: whenever [get_setting] returns, the name is registered and the
    value has the shape of the effective default: a boolean for a boolean
    default, a list for a list default. *)
Theorem get_setting_result_shape name config_file benchmark_name default_config w w' r :
  get_setting PLOT_KINDS import_environ name config_file benchmark_name default_config w
    = (Ok r, w') ->
  exists registry_default,
    Alist.get name (registry PLOT_KINDS import_environ benchmark_name) = Some registry_default
    /\ shaped_like (effective_default registry_default default_config name) r = true.
Proof. apply get_setting_ok_shape. Qed.

(** X14: the truth value of the flags [DEBUG] and [RAISE_INSTALL_ERROR]
    is the value that [get_setting] resolves for their option at that
    moment, and that value is always a boolean: taking the truth value
    fails only when [get_setting] itself fails. *)
Theorem flag_truth_value (flag : BooleanFlag) (w : World) :
  flag = DEBUG \/ flag = RAISE_INSTALL_ERROR ->
  match get_setting PLOT_KINDS import_environ (flag_name flag) None None None w with
  | (Ok r, w') =>
      exists b, r = PBool b
                /\ truth_value PLOT_KINDS import_environ flag w = (Ok b, w')
  | (Raise e, w') =>
      truth_value PLOT_KINDS import_environ flag w = (Raise e, w')
  end.
Proof.
  intros Hflag.
  destruct (get_setting PLOT_KINDS import_environ (flag_name flag) None None None w)
    as [[r | e] w'] eqn:Hget.
  - destruct (get_setting_ok_shape _ _ _ _ _ _ _ Hget) as (rd & Hreg & Hshape).
    assert (Hrd : rd = PBool false).
    { destruct Hflag as [-> | ->];
        change (Some (PBool false) = Some rd) in Hreg; congruence. }
    subst rd. cbn in Hshape. destruct r; try discriminate.
    exists b. split; [reflexivity |].
    unfold truth_value, BooleanFlag_bool, bind. rewrite Hget. reflexivity.
  - unfold truth_value, BooleanFlag_bool, bind. rewrite Hget. reflexivity.
Qed.

End Reading.

Lemma get_setting_unknown_name_witness :
  let w := legacy_world legacy_with_plots in
  get_setting documented_plot_kinds ∅ "verbose" (Some ["benchopt.ini"]%string) None None w
    = (Raise AssertionError, w)
  /\ fs w = fs w.
Proof.
  intros w.
  exact (get_setting_unknown_name documented_plot_kinds ∅ "verbose"
           (Some ["benchopt.ini"]%string) None None w ["benchopt.ini"]%string w
           eq_refl eq_refl).
Defined.

Lemma get_setting_absent_store_witness :
  get_setting documented_plot_kinds ∅ "data_dir" None None None fresh_world
  = (Ok (PStr "./data/"), fresh_world).
Proof.
  exact (get_setting_absent_store documented_plot_kinds ∅ "data_dir" None None None
           fresh_world (home_config_file fresh_world) fresh_world (PStr "./data/")
           eq_refl eq_refl ltac:(discriminate) eq_refl eq_refl).
Defined.

Lemma get_setting_empty_store_witness :
  let w := with_fs fresh_world
             {[ local_config_file := mkFile GLOBAL_CONFIG_FILE_MODE CEmpty ]} in
  get_setting documented_plot_kinds ∅ "debug" None None None w
  = (Raise AttributeError, w).
Proof.
  intros w.
  exact (get_setting_empty_store documented_plot_kinds ∅ "debug" None None None
           w local_config_file w (PBool false) _
           eq_refl eq_refl ltac:(discriminate) eq_refl eq_refl).
Defined.

Lemma get_setting_reads_only_witness :
  let w := store_world ∅ {["debug"%string := PStr "maybe"]} in
  let w' := snd (get_setting documented_plot_kinds ∅ "debug" None None None w) in
  fs w' = fs w /\ environ w' = environ w.
Proof.
  intros w.
  exact (get_setting_reads_only documented_plot_kinds ∅ "debug" None None None
           w local_config_file w eq_refl ltac:(discriminate)).
Defined.

Lemma get_setting_result_shape_witness :
  exists registry_default,
    Alist.get "debug"%string (registry documented_plot_kinds ∅ None) = Some registry_default
    /\ shaped_like (effective_default registry_default None "debug") (PBool true) = true.
Proof.
  exact (get_setting_result_shape documented_plot_kinds ∅ "debug" None None None
           (store_world ∅ {["debug"%string := PStr "yes"]})
           (store_world ∅ {["debug"%string := PStr "yes"]}) (PBool true) eq_refl).
Defined.

Lemma flag_truth_value_witness :
  let w := store_world {["BENCHOPT_DEBUG"%string := "on"%string]} ∅ in
  match get_setting documented_plot_kinds ∅ (flag_name DEBUG) None None None w with
  | (Ok r, w') =>
      exists b, r = PBool b /\ truth_value documented_plot_kinds ∅ DEBUG w = (Ok b, w')
  | (Raise e, w') => truth_value documented_plot_kinds ∅ DEBUG w = (Raise e, w')
  end.
Proof.
  intros w.
  exact (flag_truth_value documented_plot_kinds ∅ DEBUG w (or_introl eq_refl)).
Defined.

(** ** [set_setting], when the name is registered *)

Lemma Alist_get_set_eq {V} (k : string) (v : V) (l : list (string * V)) :
  Alist.get k (Alist.set k v l) = Some v.
Proof.
  induction l as [| [k' v'] l IH]; cbn.
  - destruct (decide (k = k)); [reflexivity | contradiction].
  - destruct (decide (k' = k)) as [E | E]; cbn.
    + destruct (decide (k = k)); [reflexivity | contradiction].
    + destruct (decide (k' = k)); [contradiction | exact IH].
Qed.

Lemma Alist_get_set_ne {V} (k k0 : string) (v : V) (l : list (string * V)) :
  k0 <> k -> Alist.get k0 (Alist.set k v l) = Alist.get k0 l.
Proof.
  intros Hne. induction l as [| [k' v'] l IH]; cbn.
  - destruct (decide (k = k0)); [congruence | reflexivity].
  - destruct (decide (k' = k)) as [E | E]; cbn.
    + subst k'. destruct (decide (k = k0)); [congruence | reflexivity].
    + destruct (decide (k' = k0)); [reflexivity | exact IH].
Qed.

Lemma Alist_get_snoc_fresh {V} (k k0 : string) (v : V) (l : list (string * V)) :
  Alist.get k l = None ->
  Alist.get k0 (l ++ [(k, v)]) = if decide (k = k0) then Some v else Alist.get k0 l.
Proof.
  intros Hk. induction l as [| [k' v'] l IH]; cbn in *; [reflexivity |].
  destruct (decide (k' = k)) as [E | E]; [discriminate |].
  destruct (decide (k' = k0)) as [E0 | E0].
  - destruct (decide (k = k0)); [congruence | reflexivity].
  - apply IH, Hk.
Qed.

Section Storing.

Variable PLOT_KINDS : list string.
Variable import_environ : gmap string string.

(** The names of the registries are in lower case, as [ConfigParser]
    stores them. *)
Lemma registered_lower name benchmark_name default_value :
  Alist.get name (registry PLOT_KINDS import_environ benchmark_name) = Some default_value ->
  optionxform name = name.
Proof.
  destruct benchmark_name as [b |]; cbn [registry]; unfold DEFAULT_BENCHMARK_CONFIG,
    DEFAULT_GLOBAL_CONFIG; cbn [Alist.get]; intros H;
    repeat match type of H with
           | (if decide (?k = name) then _ else _) = _ =>
               destruct (decide (k = name)) as [<- | _]; [reflexivity |]
           end; discriminate.
Qed.

(** [set_setting] with a registered name, step by step: the file is read,
    the value serialised and assigned, then the file is created if
    missing and written. *)
Lemma set_setting_run name value config_file benchmark_name w p w1 default_value :
  Alist.get name (registry PLOT_KINDS import_environ benchmark_name) = Some default_value ->
  located config_file w = (Ok p, w1) ->
  set_setting PLOT_KINDS import_environ name value config_file benchmark_name w
  = match ConfigParser_read p w1 with
    | (Raise e, _) => (Raise e, w1)
    | (Ok config, _) =>
        match res_bind (reverse_parse default_value value)
                (Configparser.setitem
                   (with_section (section_name benchmark_name) config)
                   (section_name benchmark_name) name) with
        | Raise e => (Raise e, w1)
        | Ok c' =>
            (Ok tt,
             with_fs w1 (<[p := mkFile (written_mode w1 p) (ConfigParser_write c')]> (fs w1)))
        end
    end.
Proof.
  intros Hreg Hloc.
  unfold set_setting. unfold bind at 1.
  change (match config_file with
          | Some c => ret c
          | None => get_global_config_file
          end w) with (located config_file w).
  rewrite Hloc.
  set (scope := match benchmark_name with
                | Some b => (b, DEFAULT_BENCHMARK_CONFIG PLOT_KINDS)
                | None => ("benchopt"%string, DEFAULT_GLOBAL_CONFIG import_environ)
                end).
  assert (Hscope : scope = (section_name benchmark_name,
                            registry PLOT_KINDS import_environ benchmark_name))
    by (destruct benchmark_name; reflexivity).
  rewrite Hscope, Hreg. unfold bind at 1.
  assert (Hread : exists r, ConfigParser_read p w1 = (r, w1)).
  { unfold ConfigParser_read. destruct (fs w1 !! p) as [f |]; [destruct (body f) |]; eauto. }
  destruct Hread as [[config | e] Hread]; rewrite Hread; [| reflexivity].
  fold (with_section (section_name benchmark_name) config).
  run_step.
  destruct (reverse_parse default_value value) as [raw | e]; [| reflexivity].
  cbn [res_bind].
  destruct (Configparser.setitem _ (section_name benchmark_name) name raw) as [c' | e];
    [| reflexivity].
  unfold touch, write_file, written_mode.
  destruct (fs w1 !! p) as [f |] eqn:Hp; cbn; rewrite ?Hp; cbn.
  - reflexivity.
  - rewrite lookup_insert_eq. cbn. rewrite insert_insert_eq. reflexivity.
Qed.

Lemma raw_option_with_section section config sec key :
  raw_option (with_section section config) sec key = raw_option config sec key.
Proof.
  unfold with_section, Configparser.contains.
  destruct (bool_decide (section = default_section)); [reflexivity |]. cbn [orb].
  unfold Alist.mem. destruct (Alist.get section (_sections config)) as [o |] eqn:Hs;
    [reflexivity |].
  unfold raw_option, Configparser.add_section. cbn [_sections].
  rewrite Alist_get_snoc_fresh by exact Hs.
  destruct (decide (section = sec)) as [<- | _]; [rewrite Hs |]; reflexivity.
Qed.

(** What an assignment in a section other than [DEFAULT] does to the
    parser: the option has the new value, every other option and the
    defaults are as before. *)
Lemma setitem_raw_option c section name s c' :
  section <> EmptyString ->
  section <> default_section ->
  optionxform name = name ->
  Configparser.setitem c section name (PStr s) = Ok c' ->
  raw_option c' section name = Some s
  /\ (forall sec key, (sec, key) <> (section, name) ->
                      raw_option c' sec key = raw_option c sec key)
  /\ _defaults c' = _defaults c.
Proof.
  intros Hne Hnd Hlow. unfold Configparser.setitem. rewrite Hlow.
  destruct (if Text.nonempty s then before_set s else Ok s) as [s' | e] eqn:Hs;
    [| discriminate].
  assert (s' = s) as ->.
  { destruct (Text.nonempty s); [| congruence].
    unfold before_set in Hs. destruct (references_ok Plain (drop_escaped s)); congruence. }
  cbn [res_bind].
  assert (Hsec : negb (Text.nonempty section) || bool_decide (section = default_section)
                 = false).
  { destruct section; [contradiction |]. cbn. apply bool_decide_eq_false_2, Hnd. }
  rewrite Hsec.
  destruct (Alist.get section (_sections c)) as [opts |] eqn:Hopts; [| discriminate].
  intros [= <-]. unfold raw_option. cbn [_sections _defaults].
  split; [| split; [| reflexivity]].
  - rewrite Alist_get_set_eq. apply Alist_get_set_eq.
  - intros sec key Hneq. destruct (decide (sec = section)) as [-> | Hsec'].
    + rewrite Alist_get_set_eq, Hopts. apply Alist_get_set_ne. congruence.
    + rewrite Alist_get_set_ne by exact Hsec'. reflexivity.
Qed.

(** An option of the text that is read back is the option of the parser
    that was written, read back. *)
Lemma Alist_get_read_back key (opts : list (string * string)) :
  Alist.get key (read_back_options opts) = read_back_value <$> Alist.get key opts.
Proof.
  induction opts as [| [k v] opts IH]; [reflexivity |].
  cbn. destruct (decide (k = key)); [reflexivity | exact IH].
Qed.

Lemma raw_option_read_back c sec key :
  raw_option (read_back c) sec key = read_back_value <$> raw_option c sec key.
Proof.
  unfold raw_option, read_back. cbn [_sections].
  induction (_sections c) as [| [k opts] secs IH]; [reflexivity |].
  cbn. destruct (decide (k = sec)); [apply Alist_get_read_back | exact IH].
Qed.

(** X15: on a store file that does not exist, [set_setting] with a
    registered name and a value that serialises creates the file with the
    owner-only mode (under a umask that leaves the owner's read and write
    bits) and writes one section that holds the one option. The value of
    the option in the file is the serialised value as [ConfigParser]
    reads it back: stripped line by line, without the continuation lines
    that start with [#] or [;]. The value is not a dictionary and its
    text holds no carriage return, and the name of the section holds no
    line break: the texts that are read back from the lines they are
    written on. *)
Theorem set_setting_creates_store name value config_file benchmark_name w p w1
    default_value s :
  Alist.get name (registry PLOT_KINDS import_environ benchmark_name) = Some default_value ->
  located config_file w = (Ok p, w1) ->
  fs w1 !! p = None ->
  ordered_value value = true ->
  reverse_parse default_value value = Ok (PStr s) ->
  before_set s = Ok s ->
  no_carriage_return s = true ->
  section_name benchmark_name <> EmptyString ->
  section_name benchmark_name <> default_section ->
  one_line (section_name benchmark_name) = true ->
  Z.land (umask w1) (Z.lor S_IRUSR S_IWUSR) = 0 ->
  set_setting PLOT_KINDS import_environ name value config_file benchmark_name w
  = (Ok tt,
     with_fs w1
       (<[p := mkFile GLOBAL_CONFIG_FILE_MODE
                 (CIni (mkConfigParser []
                          [(section_name benchmark_name, [(name, read_back_value s)])]))]>
          (fs w1))).
Proof.
  intros Hreg Hloc Hp _ Hrev Hset _ Hne Hnd _ Hmask.
  rewrite (set_setting_run _ _ _ _ _ _ _ _ Hreg Hloc).
  unfold ConfigParser_read, written_mode. rewrite Hp, Hrev. cbn [res_bind].
  unfold with_section, Configparser.contains.
  rewrite (bool_decide_eq_false_2 _ Hnd). cbn.
  unfold Configparser.setitem, Configparser.add_section. cbn [_sections _defaults app].
  rewrite (registered_lower _ _ _ Hreg).
  replace (if Text.nonempty s then before_set s else Ok s) with (@Ok string s)
    by (destruct (Text.nonempty s); congruence).
  cbn [res_bind].
  replace (negb (Text.nonempty (section_name benchmark_name))
           || bool_decide (section_name benchmark_name = default_section)) with false.
  2:{ rewrite (bool_decide_eq_false_2 _ Hnd).
      destruct (section_name benchmark_name); [contradiction | reflexivity]. }
  cbn [Alist.get].
  destruct (decide (section_name benchmark_name = section_name benchmark_name));
    [| contradiction].
  cbn -[read_back_value].
  destruct (decide (section_name benchmark_name = section_name benchmark_name));
    [| contradiction].
  rewrite created_mode_owner by exact Hmask. reflexivity.
Qed.

(** X16: when [set_setting] succeeds in a section other than [DEFAULT],
    the file keeps the mode it had (a fresh file gets the mode of a
    configuration file), and holds what was read from it with one change,
    the value of the option, everything as [ConfigParser] reads it back:
    the option has the serialised value read back, every other option of
    every section has its former value read back, and so have the
    options of [DEFAULT]. The value is not a dictionary and its text
    holds no carriage return, and the name of the section holds no line
    break. *)
Theorem set_setting_keeps_other_options name value config_file benchmark_name
    w p w1 w' default_value s :
  Alist.get name (registry PLOT_KINDS import_environ benchmark_name) = Some default_value ->
  located config_file w = (Ok p, w1) ->
  ordered_value value = true ->
  reverse_parse default_value value = Ok (PStr s) ->
  no_carriage_return s = true ->
  section_name benchmark_name <> EmptyString ->
  section_name benchmark_name <> default_section ->
  one_line (section_name benchmark_name) = true ->
  set_setting PLOT_KINDS import_environ name value config_file benchmark_name w
    = (Ok tt, w') ->
  exists c c',
    ConfigParser_read p w1 = (Ok c, w1)
    /\ w' = with_fs w1 (<[p := mkFile (written_mode w1 p) (CIni c')]> (fs w1))
    /\ raw_option c' (section_name benchmark_name) name = Some (read_back_value s)
    /\ (forall sec key, (sec, key) <> (section_name benchmark_name, name) ->
                        raw_option c' sec key = read_back_value <$> raw_option c sec key)
    /\ _defaults c' = read_back_options (_defaults c).
Proof.
  intros Hreg Hloc _ Hrev _ Hne Hnd _.
  rewrite (set_setting_run _ _ _ _ _ _ _ _ Hreg Hloc).
  assert (Hread : exists r, ConfigParser_read p w1 = (r, w1)).
  { unfold ConfigParser_read. destruct (fs w1 !! p) as [f |]; [destruct (body f) |]; eauto. }
  destruct Hread as [[c | e] Hread]; rewrite Hread; [| discriminate].
  rewrite Hrev. cbn [res_bind].
  destruct (Configparser.setitem _ _ name (PStr s)) as [c' | e] eqn:Hset; [| discriminate].
  rewrite (ConfigParser_write_setitem _ _ _ _ _ Hset).
  intros [= <-].
  destruct (setitem_raw_option _ _ _ _ _ Hne Hnd (registered_lower _ _ _ Hreg) Hset)
    as (H1 & H2 & H3).
  exists c, (read_back c'). repeat split; try reflexivity.
  - rewrite raw_option_read_back, H1. reflexivity.
  - intros sec key Hneq.
    rewrite raw_option_read_back, (H2 sec key Hneq), raw_option_with_section.
    reflexivity.
  - cbn [read_back _defaults]. rewrite H3. unfold with_section.
    destruct (Configparser.contains _ c); reflexivity.
Qed.

(** X17: [set_setting] writes last: whenever it raises, for whatever
    reason, no file has been created or changed. *)
Theorem set_setting_failure_writes_nothing name value config_file benchmark_name w w' e :
  set_setting PLOT_KINDS import_environ name value config_file benchmark_name w
    = (Raise e, w') ->
  fs w' = fs w.
Proof.
  pose proof (located_frame config_file w) as (Hfs & _).
  destruct (located config_file w) as [[p | e0] w1] eqn:Hloc; cbn [snd] in Hfs.
  - destruct (Alist.get name (registry PLOT_KINDS import_environ benchmark_name))
      as [dv |] eqn:Hreg.
    + rewrite (set_setting_run _ _ _ _ _ _ _ _ Hreg Hloc).
      destruct (ConfigParser_read p w1) as [[c | e1] w2]; [| intros [= _ <-]; exact Hfs].
      destruct (res_bind _ _) as [c' | e1]; [discriminate | intros [= _ <-]; exact Hfs].
    + rewrite (set_setting_unknown_run _ _ _ _ _ _ _ Hreg), Hloc.
      intros [= _ <-]. exact Hfs.
  - unfold set_setting. unfold bind at 1.
    change (match config_file with
            | Some c => ret c
            | None => get_global_config_file
            end w) with (located config_file w).
    rewrite Hloc. intros [= _ <-]. exact Hfs.
Qed.

(** X18: on a store file that holds a YAML document (as the migration
    writes it and as [get_setting] reads it), [set_setting] with a
    registered name raises the error of [ConfigParser.read] and leaves
    the file as it is. *)
Theorem set_setting_on_yaml_store name value config_file benchmark_name w p w1
    default_value f v :
  Alist.get name (registry PLOT_KINDS import_environ benchmark_name) = Some default_value ->
  located config_file w = (Ok p, w1) ->
  fs w1 !! p = Some f ->
  body f = CYaml v ->
  set_setting PLOT_KINDS import_environ name value config_file benchmark_name w
    = (Raise MissingSectionHeaderError, w1).
Proof.
  intros Hreg Hloc Hp Hbody.
  rewrite (set_setting_run _ _ _ _ _ _ _ _ Hreg Hloc).
  unfold ConfigParser_read. rewrite Hp, Hbody. reflexivity.
Qed.

End Storing.

Lemma set_setting_creates_store_witness :
  set_setting documented_plot_kinds ∅ "plots"
    (PList [PStr "bar_chart"; PStr "#later"; PStr " boxplot "])
    None (Some "bench1"%string) fresh_world
  = (Ok tt,
     with_fs fresh_world
       (<[home_config_file fresh_world :=
            mkFile GLOBAL_CONFIG_FILE_MODE
              (CIni (mkConfigParser []
                       [("bench1"%string,
                         [("plots"%string, nl +:+ "bar_chart" +:+ nl +:+ "boxplot")])]))]>
          (fs fresh_world))).
Proof.
  exact (set_setting_creates_store documented_plot_kinds ∅ "plots"
           (PList [PStr "bar_chart"; PStr "#later"; PStr " boxplot "])
           None (Some "bench1"%string)
           fresh_world (home_config_file fresh_world) fresh_world
           (PList (map PStr documented_plot_kinds))
           (nl +:+ "bar_chart" +:+ nl +:+ "#later" +:+ nl +:+ " boxplot ")
           eq_refl eq_refl eq_refl eq_refl eq_refl eq_refl eq_refl
           ltac:(discriminate) ltac:(discriminate) eq_refl eq_refl).
Defined.

Lemma set_setting_keeps_other_options_witness :
  let w := legacy_world legacy_with_plots in
  let legacy := ["benchopt.ini"]%string in
  exists c c',
    ConfigParser_read legacy w = (Ok c, w)
    /\ snd (set_setting documented_plot_kinds ∅ "conda_cmd" (PStr " mamba ") (Some legacy)
              None w)
       = with_fs w (<[legacy := mkFile (written_mode w legacy) (CIni c')]> (fs w))
    /\ raw_option c' "benchopt" "conda_cmd" = Some (read_back_value " mamba ")
    /\ (forall sec key, (sec, key) <> ("benchopt"%string, "conda_cmd"%string) ->
                        raw_option c' sec key = read_back_value <$> raw_option c sec key)
    /\ _defaults c' = read_back_options (_defaults c).
Proof.
  intros w legacy.
  assert (Hset : set_setting documented_plot_kinds ∅ "conda_cmd" (PStr " mamba ")
                   (Some legacy) None w
                 = (Ok tt,
                    snd (set_setting documented_plot_kinds ∅ "conda_cmd" (PStr " mamba ")
                           (Some legacy) None w)))
    by (vm_compute; reflexivity).
  exact (set_setting_keeps_other_options documented_plot_kinds ∅ "conda_cmd"
           (PStr " mamba ") (Some legacy) None w legacy w _ (PStr "conda") " mamba "
           eq_refl eq_refl eq_refl eq_refl eq_refl
           ltac:(discriminate) ltac:(discriminate) eq_refl Hset).
Defined.

Lemma set_setting_failure_writes_nothing_witness :
  set_setting documented_plot_kinds ∅ "debug" (PStr "maybe") None None fresh_world
    = (Raise AssertionError, fresh_world)
  /\ fs fresh_world = fs fresh_world.
Proof.
  split; [reflexivity |].
  exact (set_setting_failure_writes_nothing documented_plot_kinds ∅ "debug" (PStr "maybe")
           None None fresh_world fresh_world AssertionError eq_refl).
Defined.

Lemma set_setting_on_yaml_store_witness :
  let w := store_world ∅ {["debug"%string := PBool true]} in
  set_setting documented_plot_kinds ∅ "debug" (PBool false) None None w
  = (Raise MissingSectionHeaderError, w).
Proof.
  intros w.
  exact (set_setting_on_yaml_store documented_plot_kinds ∅ "debug" (PBool false)
           None None w local_config_file w (PBool false) _ _
           eq_refl eq_refl eq_refl eq_refl).
Defined.

(** ** The migration, on every legacy file *)

Section Migrating.

Variable PLOT_KINDS : list string.
Variable import_environ : gmap string string.

Lemma convert_values_reads_only c sec default (opts : list string) values :
  reads_only (convert_values c sec default opts values).
Proof.
  revert values. induction opts as [| key opts IH]; intros values.
  - intros w. repeat split.
  - cbn [convert_values]. apply reads_only_bind; [apply reads_only_pure | intros raw].
    destruct (Alist.get key default) as [dv |]; [| intros w; repeat split].
    apply reads_only_bind; [apply reads_only_parse_value | intros v; apply IH].
Qed.

Lemma convert_sections_reads_only c (secs : list string) config :
  reads_only (convert_sections PLOT_KINDS import_environ c secs config).
Proof.
  revert config. induction secs as [| sec secs IH]; intros config.
  - intros w. repeat split.
  - cbn [convert_sections]. apply reads_only_bind; [apply reads_only_pure | intros opts].
    apply reads_only_bind; [apply convert_values_reads_only | intros vs; apply IH].
Qed.

(** The migration, step by step: one warning, then the legacy file is
    read and converted, and only then is the sibling file created if
    missing and written. *)
Lemma convert_ini_to_yml_run p w :
  let w0 := with_diag w (diag w ++ [Warn_ini_deprecated p]) in
  let yml := with_suffix p ".yml" in
  convert_ini_to_yml PLOT_KINDS import_environ p w
  = match ConfigParser_read p w0 with
    | (Raise e, _) => (Raise e, w0)
    | (Ok c, _) =>
        match convert_sections PLOT_KINDS import_environ c (Configparser.sections c) ∅ w0 with
        | (Raise e, w1) => (Raise e, w1)
        | (Ok doc, w1) =>
            (Ok tt,
             with_fs w1 (<[yml := mkFile (written_mode w yml) (CYaml (PDict doc))]> (fs w)))
        end
    end.
Proof.
  intros w0 yml.
  unfold convert_ini_to_yml. unfold bind at 1, emit. fold w0. unfold bind at 1.
  assert (Hread : exists r, ConfigParser_read p w0 = (r, w0)).
  { unfold ConfigParser_read. destruct (fs w0 !! p) as [f |]; [destruct (body f) |]; eauto. }
  destruct Hread as [[c | e] Hread]; rewrite Hread; [| reflexivity].
  unfold bind at 1.
  destruct (convert_sections_reads_only c (Configparser.sections c) ∅ w0)
    as (Hfs & _ & Hmask).
  destruct (convert_sections PLOT_KINDS import_environ c (Configparser.sections c) ∅ w0)
    as [[doc | e] w1]; [| reflexivity].
  cbn [snd] in Hfs, Hmask. change (fs w0) with (fs w) in Hfs.
  change (umask w0) with (umask w) in Hmask.
  fold yml. unfold bind, touch, write_file, written_mode, Yaml.safe_dump. cbn beta.
  rewrite Hfs, Hmask.
  destruct (fs w !! yml) as [f |] eqn:Hyml; cbn; rewrite ?Hfs, ?Hyml; cbn.
  - reflexivity.
  - rewrite lookup_insert_eq. cbn. rewrite insert_insert_eq. reflexivity.
Qed.

(** X19: the migration writes last: whenever it raises, for whatever
    reason, no file has been created or changed. *)
Theorem convert_ini_to_yml_failure_writes_nothing p w w' e :
  convert_ini_to_yml PLOT_KINDS import_environ p w = (Raise e, w') ->
  fs w' = fs w.
Proof.
  rewrite convert_ini_to_yml_run. cbn zeta.
  destruct (ConfigParser_read p _) as [[c | e0] w0]; [| intros [= _ <-]; reflexivity].
  match goal with
  | |- context [convert_sections _ _ c ?secs ?cfg ?w1] =>
      destruct (convert_sections_reads_only c secs cfg w1) as (Hfs & _);
      destruct (convert_sections PLOT_KINDS import_environ c secs cfg w1) as [[doc | e1] w2]
  end; [discriminate |].
  intros [= _ <-]. exact Hfs.
Qed.

(** X20: when the migration succeeds, the one file it has touched is the
    sibling with the suffix [.yml]: that file now holds a YAML mapping; it
    keeps the mode it had when it existed already, and has the mode of a
    fresh configuration file otherwise. The environment is unchanged. *)
Theorem convert_ini_to_yml_writes_sibling p w w' :
  convert_ini_to_yml PLOT_KINDS import_environ p w = (Ok tt, w') ->
  exists doc,
    fs w' = <[with_suffix p ".yml" :=
                mkFile (written_mode w (with_suffix p ".yml")) (CYaml (PDict doc))]> (fs w)
    /\ environ w' = environ w.
Proof.
  rewrite convert_ini_to_yml_run. cbn zeta.
  destruct (ConfigParser_read p _) as [[c | e0] w0]; [| discriminate].
  match goal with
  | |- context [convert_sections _ _ c ?secs ?cfg ?w1] =>
      destruct (convert_sections_reads_only c secs cfg w1) as (_ & Henv & _);
      destruct (convert_sections PLOT_KINDS import_environ c secs cfg w1) as [[doc | e1] w2]
  end; [| discriminate].
  intros [= <-]. exists doc. split; [reflexivity | exact Henv].
Qed.

(** X21: the migration never deletes or changes the legacy file it reads,
    whether it succeeds or fails. *)
Theorem convert_ini_to_yml_keeps_legacy p w :
  suffix p = ".ini"%string ->
  fs (snd (convert_ini_to_yml PLOT_KINDS import_environ p w)) !! p = fs w !! p.
Proof.
  intros Hsuf. rewrite convert_ini_to_yml_run. cbn zeta.
  destruct (ConfigParser_read p _) as [[c | e0] w0]; [| reflexivity].
  match goal with
  | |- context [convert_sections _ _ c ?secs ?cfg ?w1] =>
      destruct (convert_sections_reads_only c secs cfg w1) as (Hfs & _);
      destruct (convert_sections PLOT_KINDS import_environ c secs cfg w1) as [[doc | e1] w2]
  end; cbn [snd] in *.
  - cbn [fs with_fs]. apply lookup_insert_ne, with_suffix_yml_neq, Hsuf.
  - rewrite Hfs. reflexivity.
Qed.

(** X22: the migration of a legacy file succeeds when [ConfigParser.get]
    returns every value and every key of every section is registered (in
    the global registry for the reserved section, in the benchmark
    registry for the others). *)
Theorem convert_ini_to_yml_registered_keys p w f c :
  fs w !! p = Some f ->
  body f = CIni c ->
  values_readable c ->
  (forall sec key, option_of c sec key ->
                   is_Some (Alist.get key (section_registry PLOT_KINDS import_environ sec))) ->
  exists w', convert_ini_to_yml PLOT_KINDS import_environ p w = (Ok tt, w').
Proof.
  intros Hp Hbody Hread Hall.
  rewrite convert_ini_to_yml_run. cbn zeta.
  unfold ConfigParser_read. cbn [fs with_diag]. rewrite Hp, Hbody.
  match goal with
  | |- context [convert_sections _ _ c ?secs ?cfg ?w1] =>
      destruct (convert_sections_run PLOT_KINDS import_environ c secs cfg w1 Hread)
        as [_ Hres]; [auto |];
      destruct (convert_sections PLOT_KINDS import_environ c secs cfg w1) as [[doc | e1] w2]
  end; cbn [fst] in Hres; [eauto |].
  destruct Hres as [[[doc Hdoc] _] | (sec & key & _ & _ & Hopt & Hnone)]; [discriminate |].
  destruct (Hall sec key Hopt) as [v Hv]. congruence.
Qed.

End Migrating.

Lemma legacy_with_plots_registered PLOT_KINDS import_environ :
  values_readable legacy_with_plots /\
  forall sec key, option_of legacy_with_plots sec key ->
                  is_Some (Alist.get key (section_registry PLOT_KINDS import_environ sec)).
Proof.
  split; intros sec key [Hsec (opts & Hopts & Hkey)];
    cbn in Hsec; repeat (apply elem_of_cons in Hsec as [-> | Hsec]);
    try (inversion Hsec; fail);
    vm_compute in Hopts; injection Hopts as <-;
    repeat (apply elem_of_cons in Hkey as [-> | Hkey]);
    try (inversion Hkey; fail); eexists; vm_compute; reflexivity.
Qed.

Lemma convert_ini_to_yml_failure_writes_nothing_witness :
  let w := legacy_world legacy_with_opt in
  let w' := with_diag w [Warn_ini_deprecated ["benchopt.ini"]%string] in
  convert_ini_to_yml documented_plot_kinds ∅ ["benchopt.ini"]%string w
    = (Raise (KeyError "opt"), w')
  /\ fs w' = fs w.
Proof.
  intros w w'. split; [reflexivity |].
  exact (convert_ini_to_yml_failure_writes_nothing documented_plot_kinds ∅
           ["benchopt.ini"]%string w w' (KeyError "opt") eq_refl).
Defined.

Lemma convert_ini_to_yml_writes_sibling_witness :
  let w := legacy_world legacy_with_plots in
  let w' := snd (convert_ini_to_yml documented_plot_kinds ∅ ["benchopt.ini"]%string w) in
  exists doc,
    fs w' = <[with_suffix ["benchopt.ini"]%string ".yml" :=
                mkFile (written_mode w (with_suffix ["benchopt.ini"]%string ".yml"))
                  (CYaml (PDict doc))]> (fs w)
    /\ environ w' = environ w.
Proof.
  intros w w'.
  assert (Hrun : convert_ini_to_yml documented_plot_kinds ∅ ["benchopt.ini"]%string w
                 = (Ok tt, w')) by (vm_compute; reflexivity).
  exact (convert_ini_to_yml_writes_sibling documented_plot_kinds ∅
           ["benchopt.ini"]%string w w' Hrun).
Defined.

Lemma convert_ini_to_yml_keeps_legacy_witness :
  let w := legacy_world legacy_with_plots in
  fs (snd (convert_ini_to_yml documented_plot_kinds ∅ ["benchopt.ini"]%string w))
    !! ["benchopt.ini"]%string
  = fs w !! ["benchopt.ini"]%string.
Proof.
  intros w.
  exact (convert_ini_to_yml_keeps_legacy documented_plot_kinds ∅
           ["benchopt.ini"]%string w eq_refl).
Defined.

Lemma convert_ini_to_yml_registered_keys_witness :
  exists w',
    convert_ini_to_yml documented_plot_kinds ∅ ["benchopt.ini"]%string
      (legacy_world legacy_with_plots) = (Ok tt, w').
Proof.
  exact (convert_ini_to_yml_registered_keys documented_plot_kinds ∅
           ["benchopt.ini"]%string (legacy_world legacy_with_plots) _ legacy_with_plots
           eq_refl eq_refl
           (proj1 (legacy_with_plots_registered documented_plot_kinds ∅))
           (proj2 (legacy_with_plots_registered documented_plot_kinds ∅))).
Defined.

(** ** Legacy paths *)

Section LegacyPaths.

Variable PLOT_KINDS : list string.
Variable import_environ : gmap string string.

(** X23: through a path with the legacy suffix, where neither that file
    nor its sibling exists, reading a registered option without
    environment variable returns the effective default, and leaves
    behind a sibling file in the current format that holds the empty
    mapping. *)
Theorem get_setting_absent_legacy_path name config_file benchmark_name default_config
    w p w1 registry_default :
  Alist.get name (registry PLOT_KINDS import_environ benchmark_name) = Some registry_default ->
  located config_file w = (Ok p, w1) ->
  suffix p = ".ini"%string ->
  fs w1 !! p = None ->
  fs w1 !! with_suffix p ".yml" = None ->
  environ w !! ("BENCHOPT_" +:+ Text.upper name)%string = None ->
  get_setting PLOT_KINDS import_environ name config_file benchmark_name default_config w
  = (Ok (effective_default registry_default default_config name),
     with_fs (with_diag w1 (diag w1 ++ [Warn_ini_deprecated p]))
       (<[with_suffix p ".yml" :=
            mkFile (created_mode GLOBAL_CONFIG_FILE_MODE (umask w1)) (CYaml (PDict ∅))]>
          (fs w1))).
Proof.
  intros Hreg Hloc Hsuf Hp Hyml Henv.
  set (w2 := with_fs _ _).
  assert (Hconv : convert_ini_to_yml PLOT_KINDS import_environ p w1 = (Ok tt, w2)).
  { rewrite convert_ini_to_yml_run. cbn zeta.
    unfold ConfigParser_read, written_mode. cbn [fs with_diag]. rewrite Hp, Hyml.
    reflexivity. }
  assert (Hdoc : store_document w2 (with_suffix p ".yml") = Some ∅).
  { unfold store_document, w2. cbn [fs with_fs]. rewrite lookup_insert_eq. reflexivity. }
  rewrite (get_setting_loaded PLOT_KINDS import_environ name config_file benchmark_name
             default_config w p w1 w2 ∅ registry_default Hreg Hloc
             (loads_legacy PLOT_KINDS import_environ w1 p w2 ∅ Hsuf Hconv Hdoc)).
  - cbn zeta. rewrite Henv.
    replace (stored_value benchmark_name ∅ name
               (effective_default registry_default default_config name))
      with (effective_default registry_default default_config name)
      by (destruct benchmark_name; reflexivity).
    apply parse_value_same.
  - destruct benchmark_name; reflexivity.
Qed.

Lemma set_then_get_legacy_step name (b : bool) c c' p w :
  Alist.get name (registry PLOT_KINDS import_environ None) = Some (PBool false) ->
  res_bind (reverse_parse (PBool false) (PBool b))
    (Configparser.setitem (with_section (section_name None) Configparser.empty)
       (section_name None) name) = Ok c ->
  ConfigParser_write c = CIni c' ->
  (forall w0, convert_sections PLOT_KINDS import_environ c' (Configparser.sections c') ∅ w0
              = (Ok {[name := PBool b]}, w0)) ->
  suffix p = ".ini"%string ->
  fs w !! p = None ->
  fs w !! with_suffix p ".yml" = None ->
  environ w !! ("BENCHOPT_" +:+ Text.upper name)%string = None ->
  exists w1 w2,
    set_setting PLOT_KINDS import_environ name (PBool b) (Some p) None w = (Ok tt, w1)
    /\ get_setting PLOT_KINDS import_environ name (Some p) None None w1
       = (Ok (PBool b), w2).
Proof.
  intros Hreg Hset Hwrite Hcs Hsuf Hp Hyml Henv.
  set (w1 := with_fs w (<[p := mkFile (written_mode w p) (CIni c')]> (fs w))).
  set (w0 := with_diag w1 (diag w1 ++ [Warn_ini_deprecated p])).
  set (w2 := with_fs w0
               (<[with_suffix p ".yml" :=
                    mkFile (written_mode w1 (with_suffix p ".yml"))
                      (CYaml (PDict {[name := PBool b]}))]> (fs w1))).
  exists w1, w2. split.
  - rewrite (set_setting_run PLOT_KINDS import_environ name (PBool b) (Some p) None
               w p w (PBool false) Hreg eq_refl).
    unfold ConfigParser_read. rewrite Hp, Hset, Hwrite. reflexivity.
  - assert (Hconv : convert_ini_to_yml PLOT_KINDS import_environ p w1 = (Ok tt, w2)).
    { rewrite convert_ini_to_yml_run. cbn zeta. fold w0.
      unfold ConfigParser_read. unfold w0 at 1, w1 at 1. cbn [fs with_fs with_diag].
      rewrite lookup_insert_eq. cbn [body]. rewrite Hcs. reflexivity. }
    assert (Hdoc : store_document w2 (with_suffix p ".yml") = Some {[name := PBool b]}).
    { unfold store_document, w2. cbn [fs with_fs]. rewrite lookup_insert_eq. reflexivity. }
    rewrite (get_setting_loaded PLOT_KINDS import_environ name (Some p) None None
               w1 p w1 w2 {[name := PBool b]} (PBool false) Hreg eq_refl
               (loads_legacy PLOT_KINDS import_environ w1 p w2 _ Hsuf Hconv Hdoc) eq_refl).
    cbn zeta. change (environ w1) with (environ w). rewrite Henv.
    unfold stored_value, effective_default. cbn [default].
    rewrite lookup_singleton_eq. reflexivity.
Qed.

(** X24: through a path with the legacy suffix, where neither that file
    nor its sibling exists, a boolean written with [set_setting] for
    [debug] or [raise_install_error] is the boolean that [get_setting]
    returns next, when the environment does not override it: the file
    that [set_setting] writes is migrated before it is read. *)
Theorem set_then_get_legacy_path name (b : bool) p w :
  name = "debug"%string \/ name = "raise_install_error"%string ->
  suffix p = ".ini"%string ->
  fs w !! p = None ->
  fs w !! with_suffix p ".yml" = None ->
  environ w !! ("BENCHOPT_" +:+ Text.upper name)%string = None ->
  exists w1 w2,
    set_setting PLOT_KINDS import_environ name (PBool b) (Some p) None w = (Ok tt, w1)
    /\ get_setting PLOT_KINDS import_environ name (Some p) None None w1
       = (Ok (PBool b), w2).
Proof.
  intros Hname Hsuf Hp Hyml Henv.
  destruct Hname as [-> | ->]; destruct b.
  all: match goal with
       | |- exists w1 w2, set_setting _ _ ?n (PBool ?b) _ _ _ = _ /\ _ =>
           let c := eval vm_compute in
             (res_bind (reverse_parse (PBool false) (PBool b))
                (Configparser.setitem
                   (with_section (section_name None) Configparser.empty)
                   (section_name None) n)) in
           match c with
           | Ok ?c0 =>
               let c' := eval vm_compute in (read_back c0) in
               apply (set_then_get_legacy_step n b c0 c');
               [ reflexivity | vm_compute; reflexivity | vm_compute; reflexivity
               | intros w0; vm_compute; reflexivity
               | assumption | assumption | assumption | assumption ]
           end
       end.
Qed.

End LegacyPaths.

Lemma get_setting_absent_legacy_path_witness :
  let legacy := ["benchopt.ini"]%string in
  get_setting documented_plot_kinds ∅ "conda_cmd" (Some legacy) None None fresh_world
  = (Ok (PStr "conda"),
     with_fs (with_diag fresh_world [Warn_ini_deprecated legacy])
       {[ ["benchopt.yml"]%string := mkFile GLOBAL_CONFIG_FILE_MODE (CYaml (PDict ∅)) ]}).
Proof.
  intros legacy.
  exact (get_setting_absent_legacy_path documented_plot_kinds ∅ "conda_cmd" (Some legacy)
           None None fresh_world legacy fresh_world (PStr "conda")
           eq_refl eq_refl eq_refl eq_refl eq_refl eq_refl).
Defined.

Lemma set_then_get_legacy_path_witness :
  exists w1 w2,
    set_setting documented_plot_kinds ∅ "debug" (PBool true) (Some ["benchopt.ini"]%string)
      None fresh_world = (Ok tt, w1)
    /\ get_setting documented_plot_kinds ∅ "debug" (Some ["benchopt.ini"]%string) None None w1
       = (Ok (PBool true), w2).
Proof.
  exact (set_then_get_legacy_path documented_plot_kinds ∅ "debug" true
           ["benchopt.ini"]%string fresh_world
           (or_introl eq_refl) eq_refl eq_refl eq_refl eq_refl).
Defined.

(** ** Booleans written, store entries read *)

(** X25: whatever [reverse_parse] accepts for a boolean default (a
    boolean, or a text that is one of the boolean tokens in any case) is
    a text that [parse_value] reads as a boolean against that default,
    without warning. *)
Theorem reverse_parse_boolean_reads_back (d : bool) (value raw : pyval) (w : World) :
  reverse_parse (PBool d) value = Ok raw ->
  exists token b,
    raw = PStr token
    /\ Alist.get (Text.lower token) BOOLEAN_STATES = Some b
    /\ parse_value raw (PBool d) w = (Ok (PBool b), w).
Proof.
  unfold reverse_parse.
  rewrite orb_true_r.
  destruct value; try discriminate.
  - intros [= <-]. exists (if b then "true" else "false")%string, b.
    destruct b; repeat split; reflexivity.
  - unfold Alist.mem.
    destruct (Alist.get (Text.lower s) BOOLEAN_STATES) as [b |] eqn:Hs; [| discriminate].
    intros [= <-]. exists s, b. split; [reflexivity |]. split; [exact Hs |].
    unfold parse_value. run_step. rewrite Hs. reflexivity.
Qed.

Lemma reverse_parse_boolean_reads_back_witness :
  exists token b,
    PStr "Yes" = PStr token
    /\ Alist.get (Text.lower token) BOOLEAN_STATES = Some b
    /\ parse_value (PStr "Yes") (PBool false) fresh_world = (Ok (PBool b), fresh_world).
Proof.
  exact (reverse_parse_boolean_reads_back false (PStr "Yes") (PStr "Yes") fresh_world eq_refl).
Defined.

Section StoreEntry.

Variable PLOT_KINDS : list string.
Variable import_environ : gmap string string.

(** X26: for a global query without environment variable for the
    option, on a store that loads, an entry of the document under the
    name of the option is what [get_setting] coerces and returns: the
    store comes before the default. *)
Theorem get_setting_store_entry name config_file default_config
    w p w1 w2 d registry_default v :
  Alist.get name (registry PLOT_KINDS import_environ None) = Some registry_default ->
  environ w !! ("BENCHOPT_" +:+ Text.upper name)%string = None ->
  located config_file w = (Ok p, w1) ->
  store_loads PLOT_KINDS import_environ w1 p w2 d ->
  d !! name = Some v ->
  get_setting PLOT_KINDS import_environ name config_file None default_config w
  = parse_value v (effective_default registry_default default_config name) w2.
Proof.
  intros Hreg Henv Hloc Hloads Hv.
  rewrite (get_setting_loaded PLOT_KINDS import_environ _ _ _ _ _ _ _ _ d _
             Hreg Hloc Hloads eq_refl).
  cbn zeta. rewrite Henv. unfold stored_value. rewrite Hv. reflexivity.
Qed.

End StoreEntry.

Lemma get_setting_store_entry_witness :
  let w := store_world ∅ {["debug"%string := PStr "on"]} in
  get_setting documented_plot_kinds ∅ "debug" None None None w
  = parse_value (PStr "on") (PBool false) w.
Proof.
  intros w.
  exact (get_setting_store_entry documented_plot_kinds ∅ "debug" None None
           w local_config_file w w {["debug"%string := PStr "on"]} (PBool false) (PStr "on")
           eq_refl eq_refl eq_refl
           (loads_current documented_plot_kinds ∅ w local_config_file _
              ltac:(discriminate) eq_refl)
           eq_refl).
Defined.
